(** * The safety governance engine of PhishGuard

    A shallow embedding of [src/governance/governance_engine.py]: the override
    ledger with its authority matrix, the canary signal tracker, the safety
    budget with its freeze state, the calibration policy adapter and the
    policy consistency verifier, followed by the properties the specification
    states about them.

    Conventions of the embedding.
    - A Python [int] is a [Z].  A [datetime] is a [Z], the number of
      microseconds since the epoch (the resolution of Python's [datetime]);
      a [timedelta] is a [Z] number of microseconds.  The source stores
      timestamps as their [isoformat()] text, which is a rendering of that
      number; the range limit of [datetime] (years 1 to 9999) is not modelled.
    - A Python [str] is a [string]; [Optional[T]] is [option T]; a [dict] whose
      iteration order matters is an association list, the domain-indexed
      [canary_signals] dict is a [gmap].
    - A method that mutates the engine, reads the clock or raises is a
      computation in the monad [M]: it takes the world (the engine object, the
      state file on disk, and how many times the clock and [os.urandom] were
      read) and gives back an outcome, a value or an exception, together with
      the world it leaves behind.  A raised exception keeps the mutations made
      before it, as in Python.
    - Operator-facing output (the [logging] calls and the notices printed on
      stderr) is write-only and is left out; the clock reading taken to print
      the freeze alert is kept, because it advances the clock. *)

From Stdlib Require Import ZArith QArith String List Floats DecimalString Lia.
From stdpp Require Import gmap strings.
Import ListNotations.

Set Warnings "-inexact-float,-register-all".
Local Open Scope string_scope.
Local Open Scope list_scope.
Local Open Scope Z_scope.

(** ** Configuration constants *)

Inductive OverrideAuthority := SECURITY_TEAM | ON_CALL | CI_SYSTEM.

Inductive OverrideType := PERMANENT | EMERGENCY | TESTING.

#[global] Instance OverrideAuthority_eq_dec : EqDecision OverrideAuthority.
Proof. solve_decision. Defined.

#[global] Instance OverrideType_eq_dec : EqDecision OverrideType.
Proof. solve_decision. Defined.

(** The [.value] of the two enumerations. *)
Definition authority_value (a : OverrideAuthority) : string :=
  match a with
  | SECURITY_TEAM => "security-team"
  | ON_CALL => "on-call"
  | CI_SYSTEM => "ci-system"
  end.

Definition type_value (t : OverrideType) : string :=
  match t with
  | PERMANENT => "permanent"
  | EMERGENCY => "emergency"
  | TESTING => "testing"
  end.

Definition datetime := Z.
Definition timedelta := Z.

(** [timedelta(hours=n)], in microseconds. *)
Definition hours (n : Z) : timedelta := n * 3600 * 1000000.

Definition OVERRIDE_MAX_DURATION (t : OverrideType) : option timedelta :=
  match t with
  | PERMANENT => None
  | EMERGENCY => Some (hours 24)
  | TESTING => Some (hours 1)
  end.

Definition SAFETY_BUDGET_WINDOW : timedelta := hours 24.

(** Lookup in a dict kept as an association list. *)
Fixpoint assoc {A : Type} (k : string) (d : list (string * A)) : option A :=
  match d with
  | [] => None
  | (k', v) :: d' => if String.eqb k k' then Some v else assoc k d'
  end.

Definition SAFETY_BUDGET_LIMITS : list (string * Z) :=
  [ ("suspicious_on_trusted", 0);
    ("overrides_per_window", 3);
    ("canary_failures", 5) ].

(** [SAFETY_BUDGET_LIMITS[k]]; the source only indexes it with the three
    literal keys, so the [KeyError] of a missing key cannot arise. *)
Definition budget_limit (k : string) : Z :=
  match assoc k SAFETY_BUDGET_LIMITS with
  | Some n => n
  | None => 0
  end.

Definition CANARY_MIN_PASSES : Z := 5.
Definition CANARY_MIN_SAMPLE_SIZE : Z := 100.

(** ** Data classes *)

Record Override := mkOverride {
  override_id : string;
  override_type : string;
  authority : string;
  created_at : datetime;
  expires_at : option datetime;
  affected_domains : list string;
  reason : string;
  approved_by : string;
  review_ticket : option string;
  is_active : bool
}.

Record CanarySignal := mkCanarySignal {
  domain : string;
  test_runs : Z;
  passes : Z;
  failures : Z;
  sample_size : Z;
  last_run : option datetime;
  last_verdict : option string;
  consecutive_passes : Z
}.

(** [CanarySignal(domain=domain)]: every other field at its default. *)
Definition new_signal (d : string) : CanarySignal :=
  mkCanarySignal d 0 0 0 0 None None 0.

(** [passes / test_runs] is Python's true division of two ints, the exact
    quotient rounded to a double.  It is kept here as the exact rational; the
    only use of the result is the comparison with [1.0], on which the double
    and the rational agree for all counts below 2^53. *)
Definition pass_rate (s : CanarySignal) : Q :=
  if test_runs s =? 0 then 0%Q
  else (inject_Z (passes s) / inject_Z (test_runs s))%Q.

Definition has_sufficient_signal (s : CanarySignal) : bool :=
  (CANARY_MIN_PASSES <=? test_runs s) && (CANARY_MIN_SAMPLE_SIZE <=? sample_size s).

Definition is_promotable (s : CanarySignal) : bool :=
  has_sufficient_signal s
  && (CANARY_MIN_PASSES <=? consecutive_passes s)
  && Qle_bool 1 (pass_rate s).

Record SafetyBudgetStatus := mkSafetyBudgetStatus {
  window_start : datetime;
  suspicious_on_trusted : Z;
  overrides_used : Z;
  canary_failures : Z;
  is_frozen : bool;
  freeze_reason : option string
}.

(** [SafetyBudgetStatus(window_start=t)]: counters at zero, not frozen. *)
Definition new_budget (t : datetime) : SafetyBudgetStatus :=
  mkSafetyBudgetStatus t 0 0 0 false None.

(** The dict of exceeded budgets, in the order the source builds it. *)
Definition is_budget_exceeded (b : SafetyBudgetStatus) : list (string * bool) :=
  [ ("suspicious_on_trusted",
      budget_limit "suspicious_on_trusted" <? suspicious_on_trusted b);
    ("overrides_per_window",
      budget_limit "overrides_per_window" <? overrides_used b);
    ("canary_failures",
      budget_limit "canary_failures" <? canary_failures b) ].

(** The truth value of [d.get(k)] for a dict of booleans: a missing key gives
    [None], which is false. *)
Definition get_flag (k : string) (d : list (string * bool)) : bool :=
  match assoc k d with
  | Some b => b
  | None => false
  end.

(** Field updates of the mutable data classes. *)
Definition set_is_active (v : bool) (o : Override) : Override :=
  mkOverride (override_id o) (override_type o) (authority o) (created_at o)
    (expires_at o) (affected_domains o) (reason o) (approved_by o)
    (review_ticket o) v.

Definition set_suspicious_on_trusted (v : Z) (b : SafetyBudgetStatus) :=
  mkSafetyBudgetStatus (window_start b) v (overrides_used b)
    (canary_failures b) (is_frozen b) (freeze_reason b).

Definition set_overrides_used (v : Z) (b : SafetyBudgetStatus) :=
  mkSafetyBudgetStatus (window_start b) (suspicious_on_trusted b) v
    (canary_failures b) (is_frozen b) (freeze_reason b).

Definition set_canary_failures (v : Z) (b : SafetyBudgetStatus) :=
  mkSafetyBudgetStatus (window_start b) (suspicious_on_trusted b)
    (overrides_used b) v (is_frozen b) (freeze_reason b).

Definition set_is_frozen (v : bool) (b : SafetyBudgetStatus) :=
  mkSafetyBudgetStatus (window_start b) (suspicious_on_trusted b)
    (overrides_used b) (canary_failures b) v (freeze_reason b).

Definition set_freeze_reason (v : option string) (b : SafetyBudgetStatus) :=
  mkSafetyBudgetStatus (window_start b) (suspicious_on_trusted b)
    (overrides_used b) (canary_failures b) (is_frozen b) v.

(** ** The engine object, the state file and the world *)

Record GovernanceEngine := mkEngine {
  overrides : list Override;
  canary_signals : gmap string CanarySignal;
  safety_budget : SafetyBudgetStatus
}.

(** The JSON document [_save_state] writes.  A file written by hand may lack
    the ["safety_budget"] entry, hence the option. *)
Record StateFile := mkStateFile {
  saved_overrides : list Override;
  saved_canary_signals : gmap string CanarySignal;
  saved_safety_budget : option SafetyBudgetStatus;
  last_updated : datetime
}.

Record World := mkWorld {
  engine : GovernanceEngine;
  state_file : option StateFile;
  clock_reads : nat;
  urandom_reads : nat
}.

(** ** Exceptions and outcomes *)

Inductive exn :=
| ValueError (msg : string)
| AttributeError
| JSONDecodeError.

Inductive outcome (A : Type) :=
| Return (a : A)
| Raise (e : exn).

Arguments Return {A} a.
Arguments Raise {A} e.

Definition returned {A : Type} (r : outcome A) : bool :=
  match r with
  | Return _ => true
  | Raise _ => false
  end.

Definition M (A : Type) : Type := World -> outcome A * World.

Definition ret {A : Type} (a : A) : M A := fun w => (Return a, w).

Definition raise {A : Type} (e : exn) : M A := fun w => (Raise e, w).

Definition bind {A B : Type} (c : M A) (k : A -> M B) : M B :=
  fun w =>
    match c w with
    | (Return a, w') => k a w'
    | (Raise e, w') => (Raise e, w')
    end.

(** A computation that cannot touch the world. *)
Definition lift {A : Type} (r : outcome A) : M A := fun w => (r, w).

Notation "x <- c ;; k" := (bind c (fun x => k))
  (at level 100, c at next level, right associativity).
Notation "c ;;; k" := (bind c (fun _ => k))
  (at level 100, right associativity).

Definition get_engine : M GovernanceEngine := fun w => (Return (engine w), w).

Definition put_engine (e : GovernanceEngine) : M unit :=
  fun w => (Return tt, mkWorld e (state_file w) (clock_reads w) (urandom_reads w)).

Definition modify_budget (f : SafetyBudgetStatus -> SafetyBudgetStatus) : M unit :=
  e <- get_engine ;;
  put_engine (mkEngine (overrides e) (canary_signals e) (f (safety_budget e))).

Definition get_budget : M SafetyBudgetStatus :=
  e <- get_engine ;; ret (safety_budget e).

Definition write_state_file (f : StateFile) : M unit :=
  fun w => (Return tt, mkWorld (engine w) (Some f) (clock_reads w) (urandom_reads w)).

(** The text of [str(x)] for an [Optional[str]] and for an [int]. *)
Definition str_option (o : option string) : string :=
  match o with
  | Some s => s
  | None => "None"
  end.

Definition str_int (n : Z) : string := NilZero.string_of_int (Z.to_int n).

Definition newline : string := String (Ascii.ascii_of_nat 10) "".

(** The truth value of an [Optional[str]]: [None] and the empty string are
    false. *)
Definition truthy_str (o : option string) : bool :=
  match o with
  | Some s => negb (String.eqb s "")
  | None => false
  end.

(** ** The dicts the methods return

    Each record is one dict shape of the source, its fields the dict's keys;
    a key that only some branches set is an option. *)

Module Eligibility.
Record t := mk {
  eligible : bool;
  reason : string;
  signal : option CanarySignal;
  requires_approval : option bool;
  approval_metadata_required : option (list string)
}.
End Eligibility.

Module Promotion.
Record t := mk {
  domain : string;
  promoted_at : datetime;
  approved_by : string;
  review_ticket : string;
  signal : option CanarySignal
}.
End Promotion.

Module Adjustment.
Record t := mk {
  confidence_penalty : float;
  restrict_phishing : bool;
  require_warning : bool;
  ci_should_warn : bool;
  warning_message : option string
}.
End Adjustment.

Module Status.
Record t := mk {
  is_frozen : bool;
  freeze_reason : option string;
  budget_usage : list (string * string);
  budget_exceeded : list (string * bool);
  active_overrides : Z;
  window_start : datetime
}.
End Status.

Module Consistency.
Record t := mk {
  consistent : bool;
  errors : list string;
  warnings : list string;
  should_fail_ci : bool
}.
End Consistency.

(** ** JSON artifacts read by the verifier *)

(** What [json.load] returns.  A number is kept as its exact value: Python
    compares an [int] and a [float] by value, and [True] and [False] as 1 and
    0.  An object is the parsed dict, one entry per key.  The non-standard
    literals [NaN] and [Infinity] are not represented. *)
Inductive json :=
| JNull
| JBool (b : bool)
| JNum (q : Q)
| JStr (s : string)
| JArr (l : list json)
| JObj (d : list (string * json)).

(** The truth value of a Python object. *)
Definition truthy (j : json) : bool :=
  match j with
  | JNull => false
  | JBool b => b
  | JNum q => negb (Qeq_bool q 0)
  | JStr s => negb (String.eqb s "")
  | JArr l => match l with [] => false | _ => true end
  | JObj d => match d with [] => false | _ => true end
  end.

(** Python's [==] on parsed JSON. *)
Fixpoint py_eq (a b : json) {struct a} : bool :=
  match a, b with
  | JNull, JNull => true
  | JBool x, JBool y => Bool.eqb x y
  | JBool x, JNum q => Qeq_bool (if x then 1 else 0) q
  | JNum q, JBool x => Qeq_bool q (if x then 1 else 0)
  | JNum p, JNum q => Qeq_bool p q
  | JStr s, JStr t => String.eqb s t
  | JArr l, JArr m =>
      (fix all2 (l : list json) (m : list json) : bool :=
         match l, m with
         | [], [] => true
         | x :: l', y :: m' => py_eq x y && all2 l' m'
         | _, _ => false
         end) l m
  | JObj d, JObj e =>
      Nat.eqb (length d) (length e) &&
      (fix all_in (d : list (string * json)) : bool :=
         match d with
         | [] => true
         | (k, v) :: d' =>
             match assoc k e with
             | Some v' => py_eq v v'
             | None => false
             end && all_in d'
         end) d
  | _, _ => false
  end.

(** [j.get(k)]: only a dict has the method; a missing key gives [None]. *)
Definition json_get (k : string) (j : json) : outcome json :=
  match j with
  | JObj d => Return (match assoc k d with Some v => v | None => JNull end)
  | _ => Raise AttributeError
  end.

(** A file of the state directory as [os.path.exists] and [json.load] see it. *)
Inductive artifact :=
| Absent
| Malformed
| Loaded (j : json).

Record Artifacts := mkArtifacts {
  trusted_domains_manifest : artifact;
  trusted_domains_snapshot : artifact;
  calibration_metrics : artifact
}.

(** Sequencing of computations that only raise. *)
Definition and_then {A B : Type} (r : outcome A) (k : A -> outcome B) : outcome B :=
  match r with
  | Return a => k a
  | Raise e => Raise e
  end.

Definition Qlt_bool (x y : Q) : bool := negb (Qle_bool y x).

(** ** URL input validation ([app.py])

    Here a [str] is the list of its code points, since [len] counts them.
    An argument that is not a [str] is kept apart: the callers pass whatever
    the JSON body holds. *)

Inductive pyarg :=
| PyStr (s : list N)
| PyOther.

Section UrlInput.

(** [ch.isspace()]: the code points [str.strip()] removes. *)
Variable isspace : N -> bool.

Fixpoint lstrip (s : list N) : list N :=
  match s with
  | [] => []
  | c :: rest => if isspace c then lstrip rest else s
  end.

Definition rstrip (s : list N) : list N := rev (lstrip (rev s)).

Definition strip (s : list N) : list N := rstrip (lstrip s).

Definition validate_url_input (url : pyarg) : bool * string :=
  match url with
  | PyOther => (false, "URL is required")
  | PyStr [] => (false, "URL is required")
  | PyStr s =>
      let url := strip s in
      if Z.of_nat (length url) <? 4 then (false, "URL is too short")
      else if 2000 <? Z.of_nat (length url) then
        (false, "URL is too long (max 2000 characters)")
      else if existsb (N.eqb 32) url then (false, "URL cannot contain spaces")
      else (true, "")
  end.

End UrlInput.

(** The white space of ASCII, for the examples. *)
Definition ascii_isspace (c : N) : bool :=
  ((9 <=? c) && (c <=? 13) || (28 <=? c) && (c <=? 32))%N.

(** ** An environment and some worlds for the examples

    The sample clock advances by one microsecond at every reading; the three
    renderings are placeholders, since no example depends on their text. *)

Definition sample_clock (n : nat) : datetime := Z.of_nat n.

Definition sample_suffix (n : nat) : string := "0a1b2c3d".

Definition sample_strftime (t : datetime) : string := "19700101000000".

Definition sample_percent (q : Q) : string := "?%".

Definition sample_str (j : json) : string :=
  match j with
  | JStr s => s
  | _ => "?"
  end.

(** A freshly started engine whose budget is [b]: no override, no signal, no
    state file yet. *)
Definition world_of (b : SafetyBudgetStatus) : World :=
  mkWorld (mkEngine [] ∅ b) None 0 0.

(** An unfrozen budget with [n] overrides used in the window. *)
Definition budget_with_overrides (n : Z) : SafetyBudgetStatus :=
  mkSafetyBudgetStatus 0 0 n 0 false None.

(** The budget after a suspicious verdict on a trusted domain. *)
Definition frozen_budget : SafetyBudgetStatus :=
  mkSafetyBudgetStatus 0 1 0 0 true
    (Some "CRITICAL: SUSPICIOUS verdict on trusted domain").

(** The signal after five clean runs of twenty samples each, on the sample
    clock. *)
Definition clean_signal : CanarySignal :=
  mkCanarySignal "example.com" 5 5 0 100 (Some 8) (Some "SAFE") 5.


(** Artifacts in agreement, the calibration metrics missing. *)
Definition artifacts_without_calibration : Artifacts :=
  mkArtifacts
    (Loaded (JObj [("version", JStr "1.2.0"); ("change_reason", JStr "initial")]))
    (Loaded (JObj [("_manifest_version", JStr "1.2.0")]))
    Absent.

(** ** The governance engine *)

Section Engine.

(** What the engine reads from outside: the successive readings of
    [datetime.now(timezone.utc)], the first eight hex digits of the SHA-256
    digest of the successive [os.urandom(8)] draws, and three renderings to
    text ([strftime("%Y%m%d%H%M%S")], the format [.1%] and [str]). *)
Variable clock : nat -> datetime.
Variable random_suffix : nat -> string.
Variable strftime : datetime -> string.
Variable format_percent : Q -> string.
Variable py_str : json -> string.

Definition now : M datetime :=
  fun w =>
    (Return (clock (clock_reads w)),
     mkWorld (engine w) (state_file w) (S (clock_reads w)) (urandom_reads w)).

Definition urandom_suffix : M string :=
  fun w =>
    (Return (random_suffix (urandom_reads w)),
     mkWorld (engine w) (state_file w) (clock_reads w) (S (urandom_reads w))).

(** *** State persistence *)

Definition _reset_safety_budget : M unit :=
  t <- now ;;
  modify_budget (fun _ => new_budget t).

Definition _load_state : M unit :=
  fun w =>
    match state_file w with
    | Some f =>
        match saved_safety_budget f with
        | Some b =>
            put_engine (mkEngine (saved_overrides f) (saved_canary_signals f) b) w
        | None =>
            (t <- now ;;
             put_engine (mkEngine (saved_overrides f) (saved_canary_signals f)
                           (new_budget t))) w
        end
    | None =>
        (t <- now ;;
         put_engine (mkEngine [] ∅ (new_budget t))) w
    end.

Definition _save_state : M unit :=
  e <- get_engine ;;
  t <- now ;;
  write_state_file
    (mkStateFile (overrides e) (canary_signals e) (Some (safety_budget e)) t).

(** *** Safety budgets and escalation *)

Definition _trigger_freeze (why : string) : M unit :=
  modify_budget (set_is_frozen true) ;;;
  modify_budget (set_freeze_reason (Some why)) ;;;
  _ <- now ;;
  _save_state.

(** The loop over [exceeded.items()]. *)
Fixpoint check_budgets (exceeded : list (string * bool)) : M unit :=
  match exceeded with
  | [] => ret tt
  | (budget_type, is_exceeded) :: rest =>
      b <- get_budget ;;
      (if is_exceeded && negb (is_frozen b)
       then _trigger_freeze ("Safety budget exceeded: " +:+ budget_type)
       else ret tt) ;;;
      check_budgets rest
  end.

Definition record_safety_event (event_type : string) : M unit :=
  (if String.eqb event_type "suspicious_on_trusted" then
     modify_budget
       (fun b => set_suspicious_on_trusted (suspicious_on_trusted b + 1) b) ;;;
     _trigger_freeze "CRITICAL: SUSPICIOUS verdict on trusted domain"
   else if String.eqb event_type "override" then
     modify_budget (fun b => set_overrides_used (overrides_used b + 1) b)
   else if String.eqb event_type "canary_failure" then
     modify_budget (fun b => set_canary_failures (canary_failures b + 1) b)
   else ret tt) ;;;
  b <- get_budget ;;
  check_budgets (is_budget_exceeded b) ;;;
  _save_state.

Definition lift_freeze (lifted_by resolution ticket : string) : M unit :=
  b <- get_budget ;;
  if negb (is_frozen b) then ret tt
  else
    modify_budget (set_is_frozen false) ;;;
    modify_budget (set_freeze_reason None) ;;;
    _reset_safety_budget ;;;
    _save_state.

(** *** Override authority boundaries *)

Definition frozen_message (why : option string) : string :=
  "System is frozen: " +:+ str_option why +:+ newline
  +:+ "No overrides allowed until freeze is lifted.".

Definition _validate_authority (ty : OverrideType) (au : OverrideAuthority)
    (ticket : option string) : outcome unit :=
  match ty with
  | PERMANENT =>
      if negb (bool_decide (au = SECURITY_TEAM)) then
        Raise (ValueError
          ("PERMANENT overrides require SECURITY_TEAM authority, got "
           +:+ authority_value au))
      else if negb (truthy_str ticket) then
        Raise (ValueError "PERMANENT overrides require a review_ticket reference")
      else Return tt
  | EMERGENCY =>
      if negb (bool_decide (au ∈ [SECURITY_TEAM; ON_CALL])) then
        Raise (ValueError
          ("EMERGENCY overrides require SECURITY_TEAM or ON_CALL, got "
           +:+ authority_value au))
      else Return tt
  | TESTING =>
      if negb (bool_decide (au = CI_SYSTEM)) then
        Raise (ValueError
          ("TESTING overrides are for CI_SYSTEM only, got "
           +:+ authority_value au))
      else Return tt
  end.

Definition _calculate_expiration (ty : OverrideType) (duration : option timedelta)
    : M (option datetime) :=
  match OVERRIDE_MAX_DURATION ty with
  | None => ret None
  | Some max_duration =>
      let duration :=
        match duration with
        | None => max_duration
        | Some d => if max_duration <? d then max_duration else d
        end in
      t <- now ;;
      ret (Some (t + duration))
  end.

Definition _generate_override_id : M string :=
  t <- now ;;
  suffix <- urandom_suffix ;;
  ret ("OVERRIDE-" +:+ strftime t +:+ "-" +:+ suffix).

Definition request_override (ty : OverrideType) (au : OverrideAuthority)
    (domains : list string) (why approver : string)
    (ticket : option string) (duration : option timedelta) : M Override :=
  b <- get_budget ;;
  if is_frozen b then raise (ValueError (frozen_message (freeze_reason b)))
  else
    lift (_validate_authority ty au ticket) ;;;
    expiry <- _calculate_expiration ty duration ;;
    b <- get_budget ;;
    if get_flag "overrides_per_window" (is_budget_exceeded b) then
      _trigger_freeze "Override budget exceeded" ;;;
      raise (ValueError "Override budget exceeded. System frozen.")
    else
      oid <- _generate_override_id ;;
      created <- now ;;
      let override :=
        mkOverride oid (type_value ty) (authority_value au) created expiry
          domains why approver ticket true in
      e <- get_engine ;;
      put_engine
        (mkEngine (overrides e ++ [override]) (canary_signals e) (safety_budget e)) ;;;
      modify_budget (fun b => set_overrides_used (overrides_used b + 1) b) ;;;
      _save_state ;;;
      ret override.

Definition is_expired (o : Override) : M bool :=
  match expires_at o with
  | None => ret false
  | Some expiry => t <- now ;; ret (expiry <? t)
  end.

(** The loop of [get_active_overrides]: the list with the expired overrides
    demoted, and the overrides appended to [active]. *)
Fixpoint scan_overrides (l : list Override) : M (list Override * list Override) :=
  match l with
  | [] => ret ([], [])
  | o :: rest =>
      live <- (if is_active o then x <- is_expired o ;; ret (negb x)
               else ret false) ;;
      step <- (if live then ret (o, [o])
               else
                 dead <- (if is_active o then is_expired o else ret false) ;;
                 ret (if dead then (set_is_active false o, []) else (o, []))) ;;
      r <- scan_overrides rest ;;
      ret (fst step :: fst r, snd step ++ snd r)
  end.

Definition get_active_overrides : M (list Override) :=
  e <- get_engine ;;
  r <- scan_overrides (overrides e) ;;
  put_engine (mkEngine (fst r) (canary_signals e) (safety_budget e)) ;;;
  _save_state ;;;
  ret (snd r).

(** The list with the first override of the given id deactivated, if any. *)
Fixpoint revoke_first (oid : string) (l : list Override) : option (list Override) :=
  match l with
  | [] => None
  | o :: rest =>
      if String.eqb (override_id o) oid then Some (set_is_active false o :: rest)
      else option_map (cons o) (revoke_first oid rest)
  end.

Definition revoke_override (oid revoked_by why : string) : M unit :=
  e <- get_engine ;;
  match revoke_first oid (overrides e) with
  | Some l =>
      put_engine (mkEngine l (canary_signals e) (safety_budget e)) ;;;
      _save_state
  | None => raise (ValueError ("Override not found: " +:+ oid))
  end.

(** *** Canary promotion enforcement *)

Definition put_signal (dom : string) (s : CanarySignal) : M unit :=
  e <- get_engine ;;
  put_engine (mkEngine (overrides e) (<[dom := s]> (canary_signals e)) (safety_budget e)).

(** The source mutates the signal object held by the dict; here the updated
    signal is stored back before anything else can observe the dict. *)
Definition record_canary_result (dom verdict : string) (size : Z) : M CanarySignal :=
  e <- get_engine ;;
  let signal :=
    match canary_signals e !! dom with
    | Some s => s
    | None => new_signal dom
    end in
  t <- now ;;
  let signal :=
    mkCanarySignal (domain signal) (test_runs signal + 1) (passes signal)
      (failures signal) (sample_size signal + size) (Some t) (Some verdict)
      (consecutive_passes signal) in
  if String.eqb verdict "PHISHING" then
    let signal :=
      mkCanarySignal (domain signal) (test_runs signal) (passes signal)
        (failures signal + 1) (sample_size signal) (last_run signal)
        (last_verdict signal) 0 in
    put_signal dom signal ;;;
    modify_budget (fun b => set_canary_failures (canary_failures b + 1) b) ;;;
    b <- get_budget ;;
    (if get_flag "canary_failures" (is_budget_exceeded b)
     then _trigger_freeze "Canary failure budget exceeded"
     else ret tt) ;;;
    _save_state ;;;
    ret signal
  else
    let signal :=
      mkCanarySignal (domain signal) (test_runs signal) (passes signal + 1)
        (failures signal) (sample_size signal) (last_run signal)
        (last_verdict signal) (consecutive_passes signal + 1) in
    put_signal dom signal ;;;
    _save_state ;;;
    ret signal.

Definition check_promotion_eligibility (e : GovernanceEngine) (dom : string)
    : Eligibility.t :=
  match canary_signals e !! dom with
  | None => Eligibility.mk false "No signal data recorded" None None None
  | Some signal =>
      if negb (has_sufficient_signal signal) then
        Eligibility.mk false
          ("Insufficient signal: " +:+ str_int (test_runs signal) +:+ "/"
           +:+ str_int CANARY_MIN_PASSES +:+ " runs, "
           +:+ str_int (sample_size signal) +:+ "/"
           +:+ str_int CANARY_MIN_SAMPLE_SIZE +:+ " samples")
          (Some signal) None None
      else if consecutive_passes signal <? CANARY_MIN_PASSES then
        Eligibility.mk false
          ("Insufficient consecutive passes: "
           +:+ str_int (consecutive_passes signal) +:+ "/"
           +:+ str_int CANARY_MIN_PASSES)
          (Some signal) None None
      else if Qlt_bool (pass_rate signal) 1 then
        Eligibility.mk false
          ("Pass rate " +:+ format_percent (pass_rate signal)
           +:+ " < 100% required")
          (Some signal) None None
      else
        Eligibility.mk true "All promotion criteria met" (Some signal)
          (Some true) (Some ["approved_by"; "approval_date"; "review_ticket"])
  end.

Definition promote_canary (dom approver ticket : string) : M Promotion.t :=
  e <- get_engine ;;
  let eligibility := check_promotion_eligibility e dom in
  if negb (Eligibility.eligible eligibility) then
    raise (ValueError ("Cannot promote: " +:+ Eligibility.reason eligibility))
  else
    t <- now ;;
    ret (Promotion.mk dom t approver ticket (Eligibility.signal eligibility)).

(** *** Calibration as policy input *)

Definition get_calibration_policy_adjustment (calibration_status : string)
    : Adjustment.t :=
  if String.eqb calibration_status "healthy" then
    Adjustment.mk 0.0%float false false false None
  else if String.eqb calibration_status "degraded" then
    Adjustment.mk 0.20%float true true true
      (Some "Model calibration is degraded. Confidence reduced.")
  else
    Adjustment.mk 0.10%float true true true
      (Some "Calibration status unknown. Results may be unreliable.").

Definition apply_calibration_restriction (original_verdict calibration_status : string)
    : string :=
  let adjustment := get_calibration_policy_adjustment calibration_status in
  if Adjustment.restrict_phishing adjustment && String.eqb original_verdict "PHISHING"
  then "SUSPICIOUS"
  else original_verdict.

(** *** Safety status *)

Definition get_safety_status : M Status.t :=
  b <- get_budget ;;
  active <- get_active_overrides ;;
  ret (Status.mk (is_frozen b) (freeze_reason b)
         [ ("suspicious_on_trusted",
             str_int (suspicious_on_trusted b) +:+ "/"
             +:+ str_int (budget_limit "suspicious_on_trusted"));
           ("overrides",
             str_int (overrides_used b) +:+ "/"
             +:+ str_int (budget_limit "overrides_per_window"));
           ("canary_failures",
             str_int (canary_failures b) +:+ "/"
             +:+ str_int (budget_limit "canary_failures")) ]
         (is_budget_exceeded b)
         (Z.of_nat (length active))
         (window_start b)).

(** *** Policy-as-code verification *)

Definition verify_policy_consistency (fs : Artifacts) : outcome Consistency.t :=
  and_then
    (match trusted_domains_manifest fs with
     | Absent => Return ["Manifest file missing: trusted_domains_manifest.json"]
     | Malformed => Raise JSONDecodeError
     | Loaded manifest =>
         and_then (json_get "version" manifest) (fun version =>
         and_then (json_get "change_reason" manifest) (fun change_reason =>
         Return
           ((if negb (truthy version)
             then ["Manifest missing 'version' field"] else [])
            ++ (if negb (truthy change_reason)
                then ["Manifest missing 'change_reason' field"] else []))))
     end)
    (fun errors =>
  and_then
    (match trusted_domains_snapshot fs with
     | Absent => Return (errors ++ ["Snapshot file missing"])
     | Malformed => Raise JSONDecodeError
     | Loaded snapshot =>
         match trusted_domains_manifest fs with
         | Loaded manifest =>
             and_then (json_get "_manifest_version" snapshot) (fun recorded =>
             and_then (json_get "version" manifest) (fun version =>
             Return
               (if negb (py_eq recorded version)
                then errors ++
                     ["Version mismatch: manifest=" +:+ py_str version
                      +:+ ", snapshot=" +:+ py_str recorded]
                else errors)))
         | _ => Return errors
         end
     end)
    (fun errors =>
  and_then
    (match calibration_metrics fs with
     | Absent => Return ["Calibration metrics file missing"]
     | Malformed => Raise JSONDecodeError
     | Loaded calibration =>
         and_then (json_get "calibration_status" calibration) (fun status =>
         Return
           (if negb (py_eq status (JStr "healthy"))
            then ["Calibration status is '" +:+ py_str status
                  +:+ "', not 'healthy'"]
            else []))
     end)
    (fun warnings =>
  Return
    (Consistency.mk (Nat.eqb (length errors) 0) errors warnings
       (Nat.ltb 0 (length errors)))))).

(** *** The command line

    The [__main__] block: it builds the engine from the state directory, runs
    the action of the first flag that is set, in the order verify, status,
    list-overrides, check-canary, and leaves with [exit(1)] when the verifier
    fails CI or the engine is frozen.  The value computed here is the exit
    status of the process; what the block prints is left out, as for the
    other notices.  The artifacts the verifier reads stand in the same
    directory and are passed along. *)

Record Args := mkArgs {
  arg_verify : bool;
  arg_status : bool;
  arg_list_overrides : bool;
  arg_check_canary : option string
}.

Definition main (args : Args) (fs : Artifacts) : M Z :=
  _load_state ;;;
  if arg_verify args then
    result <- lift (verify_policy_consistency fs) ;;
    if Consistency.should_fail_ci result then ret 1 else ret 0
  else if arg_status args then
    st <- get_safety_status ;;
    if Status.is_frozen st then ret 1 else ret 0
  else if arg_list_overrides args then
    get_active_overrides ;;;
    ret 0
  else
    match arg_check_canary args with
    | Some dom =>
        if negb (String.eqb dom "") then
          e <- get_engine ;;
          let result := check_promotion_eligibility e dom in
          ret 0
        else ret 0
    | None => ret 0
    end.

(** ** Vocabulary of the properties *)

(** The freeze state of the engine held by a world. *)
Definition frozen (w : World) : Prop :=
  is_frozen (safety_budget (engine w)) = true.

(** A call of one of the engine's public methods that run in [M].  The other
    public methods ([check_promotion_eligibility], the calibration adapter
    and the verifier) are functions of their arguments and cannot change the
    world. *)
Inductive call :=
| RequestOverride (ty : OverrideType) (au : OverrideAuthority)
    (domains : list string) (why approver : string)
    (ticket : option string) (duration : option timedelta)
| GetActiveOverrides
| RevokeOverride (oid revoked_by why : string)
| RecordCanaryResult (dom verdict : string) (size : Z)
| PromoteCanary (dom approver ticket : string)
| RecordSafetyEvent (event_type : string)
| LiftFreeze (lifted_by resolution ticket : string)
| GetSafetyStatus.

(** The world a call leaves behind, whether it returns or raises. *)
Definition run_call (c : call) (w : World) : World :=
  match c with
  | RequestOverride ty au domains why approver ticket duration =>
      snd (request_override ty au domains why approver ticket duration w)
  | GetActiveOverrides => snd (get_active_overrides w)
  | RevokeOverride oid revoked_by why => snd (revoke_override oid revoked_by why w)
  | RecordCanaryResult dom verdict size => snd (record_canary_result dom verdict size w)
  | PromoteCanary dom approver ticket => snd (promote_canary dom approver ticket w)
  | RecordSafetyEvent event_type => snd (record_safety_event event_type w)
  | LiftFreeze lifted_by resolution ticket => snd (lift_freeze lifted_by resolution ticket w)
  | GetSafetyStatus => snd (get_safety_status w)
  end.

Definition run_calls (cs : list call) (w : World) : World :=
  fold_left (fun w c => run_call c w) cs w.

Definition is_lift_freeze (c : call) : bool :=
  match c with
  | LiftFreeze _ _ _ => true
  | _ => false
  end.


(** Every signal counts its passes among its runs.  It holds of the empty
    engine and every method keeps it ([signals_consistent_run_call]). *)
Definition signals_consistent (e : GovernanceEngine) : Prop :=
  forall (dom : string) (s : CanarySignal),
    canary_signals e !! dom = Some s -> passes s <= test_runs s.

(** The signal [record_canary_result] updates: the one the dict holds for the
    domain, or a fresh one. *)
Definition signal_of (e : GovernanceEngine) (dom : string) : CanarySignal :=
  match canary_signals e !! dom with
  | Some s => s
  | None => new_signal dom
  end.

(** The state file holds the engine as it stands in memory. *)
Definition in_sync (w : World) : Prop :=
  exists f,
    state_file w = Some f /\
    saved_overrides f = overrides (engine w) /\
    saved_canary_signals f = canary_signals (engine w) /\
    saved_safety_budget f = Some (safety_budget (engine w)).

(** Every signal has counted each of its runs as a pass or as a failure. *)
Definition signals_counted (e : GovernanceEngine) : Prop :=
  forall (dom : string) (s : CanarySignal),
    canary_signals e !! dom = Some s ->
    0 <= passes s /\ 0 <= failures s /\ test_runs s = passes s + failures s.

(** What an engine that is not frozen has used of its budgets. *)
Definition within_budget (w : World) : Prop :=
  is_frozen (safety_budget (engine w)) = false ->
  suspicious_on_trusted (safety_budget (engine w)) <= 0 /\
  overrides_used (safety_budget (engine w)) <= 4 /\
  canary_failures (safety_budget (engine w)) <= 5.

(** The clock never goes back. *)
Definition monotone_clock : Prop := forall n : nat, clock n <= clock (S n).

(** The counter an event of [record_safety_event] moves, other than the
    freeze of ["suspicious_on_trusted"]. *)
Definition count_event (event_type : string) (b : SafetyBudgetStatus)
    : SafetyBudgetStatus :=
  if String.eqb event_type "override" then
    set_overrides_used (overrides_used b + 1) b
  else if String.eqb event_type "canary_failure" then
    set_canary_failures (canary_failures b + 1) b
  else b.

(** The first budget that is exceeded, in the order of the dict. *)
Fixpoint first_exceeded (exceeded : list (string * bool)) : option string :=
  match exceeded with
  | [] => None
  | (k, v) :: rest => if v then Some k else first_exceeded rest
  end.

(** The sum of a list of sample sizes. *)
Definition total (sizes : list Z) : Z := fold_right Z.add 0 sizes.

(** A step of the engine's life: a call of a public method, or a new process
    that builds the engine again from the state file. *)
Inductive step :=
| Invoke (c : call)
| NewProcess.

Definition run_step (s : step) (w : World) : World :=
  match s with
  | Invoke c => run_call c w
  | NewProcess => snd (_load_state w)
  end.

Definition run_steps (ss : list step) (w : World) : World :=
  fold_left (fun w s => run_step s w) ss w.

Definition lifts_freeze (s : step) : bool :=
  match s with
  | Invoke c => is_lift_freeze c
  | NewProcess => false
  end.

(** Either a call changed neither the engine nor the state file, or the file
    holds the engine it left. *)
Definition saved_or_untouched (w w' : World) : Prop :=
  (engine w' = engine w /\ state_file w' = state_file w) \/ in_sync w'.


(** What the scan of [get_active_overrides] does to one override while the
    clock is read from the reading [lo] up to, not including, the reading
    [hi]: it keeps the override as it is, an active one with an expiration
    only if some reading had not passed the expiration; or it deactivates an
    active override whose expiration some reading had passed. *)
Definition scanned (lo hi : nat) (o o' : Override) : Prop :=
  (o' = o /\
   (is_active o = true -> forall e, expires_at o = Some e ->
    exists n, (lo <= n < hi)%nat /\ clock n <= e)) \/
  (o' = set_is_active false o /\
   is_active o = true /\
   exists e n, expires_at o = Some e /\ (lo <= n < hi)%nat /\ e < clock n).

Definition is_revoke (c : call) : bool :=
  match c with
  | RevokeOverride _ _ _ => true
  | _ => false
  end.

Definition is_request (c : call) : bool :=
  match c with
  | RequestOverride _ _ _ _ _ _ _ => true
  | _ => false
  end.

(** No active override of the ledger bears the id. *)
Definition revoked (oid : string) (w : World) : Prop :=
  forall o, In o (overrides (engine w)) -> override_id o = oid -> is_active o = false.

(** ** Running the primitives *)

Lemma _save_state_run (w : World) :
  _save_state w =
    (Return tt,
     mkWorld (engine w)
       (Some (mkStateFile (overrides (engine w)) (canary_signals (engine w))
                (Some (safety_budget (engine w))) (clock (clock_reads w))))
       (S (clock_reads w)) (urandom_reads w)).
Proof. reflexivity. Qed.

Lemma _trigger_freeze_run (why : string) (w : World) :
  _trigger_freeze why w =
    (Return tt,
     let e := mkEngine (overrides (engine w)) (canary_signals (engine w))
                (set_freeze_reason (Some why)
                   (set_is_frozen true (safety_budget (engine w)))) in
     mkWorld e
       (Some (mkStateFile (overrides e) (canary_signals e)
                (Some (safety_budget e)) (clock (S (clock_reads w)))))
       (S (S (clock_reads w))) (urandom_reads w)).
Proof. reflexivity. Qed.

Lemma _trigger_freeze_frozen (why : string) (w : World) :
  frozen (snd (_trigger_freeze why w)).
Proof. reflexivity. Qed.

(** One turn of the budget loop. *)
Lemma check_budgets_cons (k : string) (v : bool) (l : list (string * bool))
    (w : World) :
  check_budgets ((k, v) :: l) w =
    check_budgets l
      (if v && negb (is_frozen (safety_budget (engine w)))
       then snd (_trigger_freeze ("Safety budget exceeded: " +:+ k) w)
       else w).
Proof.
  cbn [check_budgets]. unfold bind, get_budget, bind, get_engine, ret.
  destruct (v && negb (is_frozen (safety_budget (engine w)))); reflexivity.
Qed.

(** Once the engine is frozen the budget loop triggers nothing. *)
Lemma check_budgets_frozen (l : list (string * bool)) (w : World) :
  frozen w -> check_budgets l w = (Return tt, w).
Proof.
  intros Hw. induction l as [|[k v] l IH]; [reflexivity|].
  rewrite check_budgets_cons. unfold frozen in Hw.
  rewrite Hw, andb_false_r. exact IH.
Qed.

(** The budget loop freezes at most: it returns, and a frozen engine stays
    frozen. *)
Lemma check_budgets_keeps_frozen (l : list (string * bool)) (w : World) :
  fst (check_budgets l w) = Return tt /\
  (frozen w -> frozen (snd (check_budgets l w))).
Proof.
  revert w. induction l as [|[k v] l IH]; intros w; [split; [reflexivity|auto]|].
  rewrite check_budgets_cons.
  destruct (v && negb (is_frozen (safety_budget (engine w)))) eqn:Hc.
  - split; [apply IH|]. intros _. apply IH. apply _trigger_freeze_frozen.
  - split; [apply IH|]. intros Hw. apply IH. exact Hw.
Qed.

(** The scan of the override list only reads the clock. *)
Lemma scan_overrides_run (l : list Override) (w : World) :
  exists (r : list Override * list Override) (n : nat),
    scan_overrides l w =
      (Return r,
       mkWorld (engine w) (state_file w) (clock_reads w + n) (urandom_reads w)).
Proof.
  revert w. induction l as [|o rest IH]; intros w.
  - exists ([], []), 0%nat. cbn. rewrite Nat.add_0_r. destruct w; reflexivity.
  - cbn [scan_overrides]. unfold is_expired.
    destruct (is_active o), (expires_at o) as [expiry|]; cbn.
    + destruct (expiry <? clock (clock_reads w)) eqn:Hx; cbn.
      * destruct (expiry <? clock (S (clock_reads w))) eqn:Hy; cbn;
          unfold bind;
          match goal with |- context [scan_overrides rest ?w'] =>
            destruct (IH w') as (r & n & ->) end;
          cbn; eexists _, (2 + n)%nat; repeat f_equal; lia.
      * unfold bind.
        match goal with |- context [scan_overrides rest ?w'] =>
          destruct (IH w') as (r & n & ->) end.
        cbn. eexists _, (1 + n)%nat. repeat f_equal; lia.
    + unfold bind. destruct (IH w) as (r & n & ->). cbn. eauto.
    + unfold bind. destruct (IH w) as (r & n & ->). cbn. eauto.
    + unfold bind. destruct (IH w) as (r & n & ->). cbn. eauto.
Qed.

Lemma bind_run {A B : Type} (c : M A) (k : A -> M B) (w : World) :
  bind c k w =
    match c w with
    | (Return a, w') => k a w'
    | (Raise e, w') => (Raise e, w')
    end.
Proof. reflexivity. Qed.

Lemma get_budget_run (w : World) :
  get_budget w = (Return (safety_budget (engine w)), w).
Proof. reflexivity. Qed.

Lemma get_engine_run (w : World) : get_engine w = (Return (engine w), w).
Proof. reflexivity. Qed.

Lemma request_override_frozen (ty : OverrideType) (au : OverrideAuthority)
    (domains : list string) (why approver : string) (ticket : option string)
    (duration : option timedelta) (w : World) :
  frozen w ->
  request_override ty au domains why approver ticket duration w =
    (Raise (ValueError (frozen_message (freeze_reason (safety_budget (engine w))))), w).
Proof.
  intros Hw. unfold request_override. rewrite bind_run, get_budget_run.
  rewrite Hw. reflexivity.
Qed.

Lemma get_active_overrides_budget (w : World) :
  safety_budget (engine (snd (get_active_overrides w))) = safety_budget (engine w).
Proof.
  unfold get_active_overrides. rewrite bind_run, get_engine_run.
  rewrite bind_run. destruct (scan_overrides_run (overrides (engine w)) w) as (r & n & ->).
  reflexivity.
Qed.

Lemma revoke_override_budget (oid revoked_by why : string) (w : World) :
  safety_budget (engine (snd (revoke_override oid revoked_by why w))) = safety_budget (engine w).
Proof.
  unfold revoke_override. rewrite bind_run, get_engine_run.
  destruct (revoke_first oid (overrides (engine w))); reflexivity.
Qed.

Lemma promote_canary_world (dom approver ticket : string) (w : World) :
  engine (snd (promote_canary dom approver ticket w)) = engine w.
Proof.
  unfold promote_canary. rewrite bind_run, get_engine_run.
  destruct (Eligibility.eligible _); reflexivity.
Qed.

Lemma get_safety_status_budget (w : World) :
  safety_budget (engine (snd (get_safety_status w))) = safety_budget (engine w).
Proof.
  unfold get_safety_status. rewrite bind_run, get_budget_run, bind_run.
  pose proof (get_active_overrides_budget w) as H.
  destruct (get_active_overrides w) as [[a|e] w']; cbn in *; exact H.
Qed.

Lemma record_canary_result_frozen (dom verdict : string) (size : Z) (w : World) :
  frozen w -> frozen (snd (record_canary_result dom verdict size w)).
Proof.
  intros Hw. unfold record_canary_result.
  rewrite bind_run, get_engine_run. rewrite bind_run. cbn [now].
  destruct (String.eqb verdict "PHISHING").
  - cbn. destruct (5 <? canary_failures (safety_budget (engine w)) + 1).
    + reflexivity.
    + exact Hw.
  - exact Hw.
Qed.

Lemma record_safety_event_frozen (event_type : string) (w : World) :
  frozen w -> frozen (snd (record_safety_event event_type w)).
Proof.
  intros Hw. unfold record_safety_event. rewrite bind_run.
  destruct (String.eqb event_type "suspicious_on_trusted");
    [|destruct (String.eqb event_type "override");
      [|destruct (String.eqb event_type "canary_failure")]];
    cbn -[check_budgets is_budget_exceeded];
    rewrite bind_run, check_budgets_frozen by (first [reflexivity | exact Hw]);
    first [reflexivity | exact Hw].
Qed.

Lemma run_call_frozen (c : call) (w : World) :
  is_lift_freeze c = false -> frozen w -> frozen (run_call c w).
Proof.
  intros Hc Hw. destruct c; cbn [run_call]; try discriminate Hc.
  - rewrite request_override_frozen by exact Hw. exact Hw.
  - unfold frozen. rewrite get_active_overrides_budget. exact Hw.
  - unfold frozen. rewrite revoke_override_budget. exact Hw.
  - apply record_canary_result_frozen, Hw.
  - unfold frozen. rewrite promote_canary_world. exact Hw.
  - apply record_safety_event_frozen, Hw.
  - unfold frozen. rewrite get_safety_status_budget. exact Hw.
Qed.

Lemma run_calls_frozen (cs : list call) (w : World) :
  forallb (fun c => negb (is_lift_freeze c)) cs = true ->
  frozen w -> frozen (run_calls cs w).
Proof.
  revert w. induction cs as [|c cs IH]; intros w Hcs Hw; [exact Hw|].
  cbn in Hcs. apply andb_prop in Hcs as [Hc Hcs].
  cbn [run_calls fold_left]. apply IH; [exact Hcs|].
  apply run_call_frozen; [|exact Hw]. destruct (is_lift_freeze c); [discriminate|reflexivity].
Qed.

(** *** Override requests *)


Lemma _validate_authority_outcome (ty : OverrideType) (au : OverrideAuthority)
    (ticket : option string) :
  _validate_authority ty au ticket = Return tt \/
  exists msg, _validate_authority ty au ticket = Raise (ValueError msg).
Proof.
  destruct ty, au; cbn; eauto.
  destruct (truthy_str ticket); cbn; eauto.
Qed.

Lemma _calculate_expiration_run (ty : OverrideType) (duration : option timedelta)
    (w : World) :
  _calculate_expiration ty duration w =
    match OVERRIDE_MAX_DURATION ty with
    | None => (Return None, w)
    | Some max_duration =>
        (Return (Some (clock (clock_reads w)
                       + match duration with
                         | None => max_duration
                         | Some d => Z.min d max_duration
                         end)),
         mkWorld (engine w) (state_file w) (S (clock_reads w)) (urandom_reads w))
    end.
Proof.
  unfold _calculate_expiration.
  destruct (OVERRIDE_MAX_DURATION ty) as [m|]; [|reflexivity].
  destruct duration as [d|]; [|reflexivity].
  unfold bind, now, ret.
  destruct (Z.ltb_spec m d); repeat f_equal; lia.
Qed.


(** The override a granted request issues, and the world it leaves. *)
Lemma request_override_granted (ty : OverrideType) (au : OverrideAuthority)
    (domains : list string) (why approver : string) (ticket : option string)
    (duration : option timedelta) (w : World) :
  is_frozen (safety_budget (engine w)) = false ->
  _validate_authority ty au ticket = Return tt ->
  overrides_used (safety_budget (engine w)) <= budget_limit "overrides_per_window" ->
  exists (o : Override) (w' : World),
    request_override ty au domains why approver ticket duration w = (Return o, w') /\
    override_type o = type_value ty /\
    authority o = authority_value au /\
    affected_domains o = domains /\
    reason o = why /\
    approved_by o = approver /\
    review_ticket o = ticket /\
    is_active o = true /\
    created_at o =
      clock (match OVERRIDE_MAX_DURATION ty with
             | None => S (clock_reads w)
             | Some _ => S (S (clock_reads w))
             end) /\
    expires_at o =
      match OVERRIDE_MAX_DURATION ty with
      | None => None
      | Some max_duration =>
          Some (clock (clock_reads w)
                + match duration with
                  | None => max_duration
                  | Some d => Z.min d max_duration
                  end)
      end /\
    overrides (engine w') = overrides (engine w) ++ [o] /\
    canary_signals (engine w') = canary_signals (engine w) /\
    safety_budget (engine w') =
      set_overrides_used (overrides_used (safety_budget (engine w)) + 1)
        (safety_budget (engine w)) /\
    (exists f, state_file w' = Some f /\
               saved_overrides f = overrides (engine w') /\
               saved_safety_budget f = Some (safety_budget (engine w'))).
Proof.
  intros Hf Hv Hb. unfold request_override.
  rewrite bind_run, get_budget_run, Hf, bind_run. unfold lift. rewrite Hv.
  rewrite bind_run, _calculate_expiration_run.
  assert (Hx : (budget_limit "overrides_per_window"
                <? overrides_used (safety_budget (engine w))) = false)
    by (apply Z.ltb_ge; exact Hb).
  destruct (OVERRIDE_MAX_DURATION ty) as [m|];
    rewrite bind_run, get_budget_run; cbn -[budget_limit Z.min];
    rewrite Hx; cbn -[budget_limit Z.min];
    eexists _, _; repeat split; eexists; repeat split.
Qed.


(** A permitted request meeting a counter already above the limit raises
    and freezes the engine. *)
Lemma request_override_budget_exceeded (ty : OverrideType) (au : OverrideAuthority)
    (domains : list string) (why approver : string) (ticket : option string)
    (duration : option timedelta) (w : World) :
  is_frozen (safety_budget (engine w)) = false ->
  _validate_authority ty au ticket = Return tt ->
  budget_limit "overrides_per_window" < overrides_used (safety_budget (engine w)) ->
  exists w',
    request_override ty au domains why approver ticket duration w
      = (Raise (ValueError "Override budget exceeded. System frozen."), w') /\
    is_frozen (safety_budget (engine w')) = true /\
    freeze_reason (safety_budget (engine w')) = Some "Override budget exceeded" /\
    overrides (engine w') = overrides (engine w) /\
    overrides_used (safety_budget (engine w'))
      = overrides_used (safety_budget (engine w)).
Proof.
  intros Hf Hv Hb. unfold request_override.
  rewrite bind_run, get_budget_run, Hf, bind_run. unfold lift. rewrite Hv.
  rewrite bind_run, _calculate_expiration_run.
  apply Z.ltb_lt in Hb.
  destruct (OVERRIDE_MAX_DURATION ty) as [m|];
    rewrite bind_run, get_budget_run; cbn -[budget_limit Z.min];
    rewrite Hb; cbn -[budget_limit Z.min];
    eexists; repeat split.
Qed.


(** *** Lifting a freeze *)

Lemma lift_freeze_run (lifted_by resolution ticket : string) (w : World) :
  lift_freeze lifted_by resolution ticket w =
    if is_frozen (safety_budget (engine w)) then
      (Return tt,
       let e := mkEngine (overrides (engine w)) (canary_signals (engine w))
                  (new_budget (clock (clock_reads w))) in
       mkWorld e
         (Some (mkStateFile (overrides e) (canary_signals e)
                  (Some (safety_budget e)) (clock (S (clock_reads w)))))
         (S (S (clock_reads w))) (urandom_reads w))
    else (Return tt, w).
Proof.
  unfold lift_freeze. rewrite bind_run, get_budget_run.
  destruct (is_frozen (safety_budget (engine w))); reflexivity.
Qed.

(** *** Canary signals *)

Lemma record_canary_result_phishing (dom : string) (size : Z) (w : World) :
  let s := signal_of (engine w) dom in
  let s' := mkCanarySignal (domain s) (test_runs s + 1) (passes s)
              (failures s + 1) (sample_size s + size)
              (Some (clock (clock_reads w))) (Some "PHISHING") 0 in
  exists w',
    record_canary_result dom "PHISHING" size w = (Return s', w') /\
    canary_signals (engine w') = <[dom := s']> (canary_signals (engine w)) /\
    overrides (engine w') = overrides (engine w) /\
    canary_failures (safety_budget (engine w'))
      = canary_failures (safety_budget (engine w)) + 1.
Proof.
  cbv zeta. unfold record_canary_result, signal_of.
  rewrite bind_run, get_engine_run. rewrite bind_run. cbn [now].
  change (String.eqb "PHISHING" "PHISHING") with true. cbv iota.
  generalize (match canary_signals (engine w) !! dom with
              | Some s => s | None => new_signal dom end). intros s.
  unfold put_signal, modify_budget.
  repeat (rewrite bind_run;
          first [rewrite get_engine_run | rewrite get_budget_run | idtac];
          cbn [put_engine ret engine overrides canary_signals safety_budget]).
  cbn [domain test_runs passes failures sample_size last_run last_verdict
       consecutive_passes].
  destruct (get_flag "canary_failures" _);
    [rewrite _trigger_freeze_run|]; cbv zeta; unfold ret;
    rewrite bind_run, _save_state_run;
    (eexists; split; [reflexivity|]; split; [reflexivity|]; split; reflexivity).
Qed.

Lemma record_canary_result_pass (dom verdict : string) (size : Z) (w : World) :
  verdict <> "PHISHING" ->
  let s := signal_of (engine w) dom in
  let s' := mkCanarySignal (domain s) (test_runs s + 1) (passes s + 1)
              (failures s) (sample_size s + size)
              (Some (clock (clock_reads w))) (Some verdict)
              (consecutive_passes s + 1) in
  exists w',
    record_canary_result dom verdict size w = (Return s', w') /\
    canary_signals (engine w') = <[dom := s']> (canary_signals (engine w)) /\
    overrides (engine w') = overrides (engine w) /\
    safety_budget (engine w') = safety_budget (engine w).
Proof.
  intros Hv. cbv zeta. unfold record_canary_result, signal_of.
  rewrite bind_run, get_engine_run. rewrite bind_run. cbn [now].
  apply String.eqb_neq in Hv. rewrite Hv. cbn.
  eexists; repeat split.
Qed.

(** The comparison of the pass rate with [1.0], in integers. *)
Lemma pass_rate_ge_1 (s : CanarySignal) :
  0 < test_runs s ->
  Qle_bool 1 (pass_rate s) = true <-> test_runs s <= passes s.
Proof.
  intros Hr. unfold pass_rate.
  destruct (Z.eqb_spec (test_runs s) 0) as [E|_]; [lia|].
  rewrite Qle_bool_iff.
  destruct (test_runs s) as [|r|r]; try lia.
  unfold Qle, Qdiv, Qmult, Qinv, inject_Z; cbn.
  rewrite Pos.mul_1_l. lia.
Qed.


(** What the eligibility report says, in terms of the signal. *)
Lemma check_promotion_eligibility_eligible (e : GovernanceEngine) (dom : string) :
  Eligibility.eligible (check_promotion_eligibility e dom) =
    match canary_signals e !! dom with
    | Some s => is_promotable s
    | None => false
    end.
Proof.
  unfold check_promotion_eligibility, is_promotable, Qlt_bool.
  destruct (canary_signals e !! dom) as [s|]; [|reflexivity].
  destruct (has_sufficient_signal s); [|reflexivity]. cbn [negb andb].
  rewrite (Z.ltb_antisym CANARY_MIN_PASSES (consecutive_passes s)).
  destruct (CANARY_MIN_PASSES <=? consecutive_passes s); [|reflexivity].
  cbn [negb andb]. destruct (Qle_bool 1 (pass_rate s)); reflexivity.
Qed.

Lemma is_promotable_iff (s : CanarySignal) :
  is_promotable s = true <->
  5 <= test_runs s /\ 100 <= sample_size s /\ 5 <= consecutive_passes s /\
  (1 <= pass_rate s)%Q.
Proof.
  unfold is_promotable, has_sufficient_signal, CANARY_MIN_PASSES,
    CANARY_MIN_SAMPLE_SIZE.
  rewrite !andb_true_iff, !Z.leb_le, Qle_bool_iff. tauto.
Qed.

(** *** What the methods leave untouched *)

Lemma check_budgets_frame (l : list (string * bool)) (w : World) :
  overrides (engine (snd (check_budgets l w))) = overrides (engine w) /\
  canary_signals (engine (snd (check_budgets l w))) = canary_signals (engine w).
Proof.
  revert w. induction l as [|[k v] l IH]; intros w; [split; reflexivity|].
  rewrite check_budgets_cons.
  destruct (v && negb (is_frozen (safety_budget (engine w)))).
  - destruct (IH (snd (_trigger_freeze ("Safety budget exceeded: " +:+ k) w)))
      as [-> ->]. split; reflexivity.
  - apply IH.
Qed.

Lemma request_override_signals (ty : OverrideType) (au : OverrideAuthority)
    (domains : list string) (why approver : string) (ticket : option string)
    (duration : option timedelta) (w : World) :
  canary_signals
    (engine (snd (request_override ty au domains why approver ticket duration w)))
  = canary_signals (engine w).
Proof.
  unfold request_override. rewrite bind_run, get_budget_run.
  destruct (is_frozen (safety_budget (engine w))); [reflexivity|].
  rewrite bind_run. unfold lift.
  destruct (_validate_authority ty au ticket) as [[]|e]; [|reflexivity].
  rewrite bind_run, _calculate_expiration_run.
  destruct (OVERRIDE_MAX_DURATION ty) as [m|];
    rewrite bind_run, get_budget_run; cbn -[budget_limit Z.min];
    destruct (budget_limit "overrides_per_window" <? _); reflexivity.
Qed.

Lemma get_active_overrides_signals (w : World) :
  canary_signals (engine (snd (get_active_overrides w))) = canary_signals (engine w).
Proof.
  unfold get_active_overrides. rewrite bind_run, get_engine_run, bind_run.
  destruct (scan_overrides_run (overrides (engine w)) w) as (r & n & ->).
  reflexivity.
Qed.

Lemma revoke_override_signals (oid revoked_by why : string) (w : World) :
  canary_signals (engine (snd (revoke_override oid revoked_by why w)))
  = canary_signals (engine w).
Proof.
  unfold revoke_override. rewrite bind_run, get_engine_run.
  destruct (revoke_first oid (overrides (engine w))); reflexivity.
Qed.

Lemma record_safety_event_signals (event_type : string) (w : World) :
  canary_signals (engine (snd (record_safety_event event_type w)))
  = canary_signals (engine w).
Proof.
  unfold record_safety_event. rewrite bind_run.
  destruct (String.eqb event_type "suspicious_on_trusted");
    [|destruct (String.eqb event_type "override");
      [|destruct (String.eqb event_type "canary_failure")]];
    cbn -[check_budgets is_budget_exceeded];
    rewrite bind_run;
    match goal with |- context [check_budgets ?l ?w'] =>
      pose proof (check_budgets_frame l w') as [_ Hs];
      pose proof (check_budgets_keeps_frozen l w') as [Hr _];
      destruct (check_budgets l w') as [[[]|e] w'']; cbn in Hr, Hs;
        try discriminate Hr; cbn; exact Hs
    end.
Qed.

Lemma lift_freeze_signals (lifted_by resolution ticket : string) (w : World) :
  canary_signals (engine (snd (lift_freeze lifted_by resolution ticket w)))
  = canary_signals (engine w).
Proof.
  rewrite lift_freeze_run.
  destruct (is_frozen (safety_budget (engine w))); reflexivity.
Qed.

Lemma get_safety_status_signals (w : World) :
  canary_signals (engine (snd (get_safety_status w))) = canary_signals (engine w).
Proof.
  unfold get_safety_status. rewrite bind_run, get_budget_run, bind_run.
  pose proof (get_active_overrides_signals w) as H.
  destruct (get_active_overrides w) as [[a|e] w']; cbn in *; exact H.
Qed.

(** The updated signal of [record_canary_result] still counts its passes
    among its runs. *)
Lemma signal_of_consistent (e : GovernanceEngine) (dom : string) :
  signals_consistent e -> passes (signal_of e dom) <= test_runs (signal_of e dom).
Proof.
  intros He. unfold signal_of.
  destruct (canary_signals e !! dom) as [s|] eqn:Hs; [exact (He dom s Hs)|].
  cbn. lia.
Qed.

Lemma record_canary_result_consistent (dom verdict : string) (size : Z) (w : World) :
  signals_consistent (engine w) ->
  signals_consistent (engine (snd (record_canary_result dom verdict size w))).
Proof.
  intros He. pose proof (signal_of_consistent (engine w) dom He) as Hs.
  destruct (String.eqb_spec verdict "PHISHING") as [->|Hv].
  - destruct (record_canary_result_phishing dom size w) as (w' & -> & Hm & _).
    cbn [snd]. intros d s. rewrite Hm, lookup_insert.
    destruct (decide (dom = d)); [|apply He].
    intros [= <-]. cbn. lia.
  - destruct (record_canary_result_pass dom verdict size w Hv) as (w' & -> & Hm & _).
    cbn [snd]. intros d s. rewrite Hm, lookup_insert.
    destruct (decide (dom = d)); [|apply He].
    intros [= <-]. cbn. lia.
Qed.

(** The consistency of the signals is an invariant of the engine. *)
Lemma signals_consistent_run_call (c : call) (w : World) :
  signals_consistent (engine w) -> signals_consistent (engine (run_call c w)).
Proof.
  intros He. destruct c; cbn [run_call].
  - unfold signals_consistent. rewrite request_override_signals. exact He.
  - unfold signals_consistent. rewrite get_active_overrides_signals. exact He.
  - unfold signals_consistent. rewrite revoke_override_signals. exact He.
  - apply record_canary_result_consistent, He.
  - rewrite promote_canary_world. exact He.
  - unfold signals_consistent. rewrite record_safety_event_signals. exact He.
  - unfold signals_consistent. rewrite lift_freeze_signals. exact He.
  - unfold signals_consistent. rewrite get_safety_status_signals. exact He.
Qed.

Lemma signals_consistent_fresh (w : World) :
  state_file w = None -> signals_consistent (engine (snd (_load_state w))).
Proof.
  intros Hf. unfold _load_state. rewrite Hf.
  intros d s. unfold bind, now, put_engine. cbn [snd engine]. cbn [canary_signals].
  rewrite lookup_empty. discriminate.
Qed.

(** *** The verifier *)

(** Whatever report comes back fails CI exactly when its error list has an
    entry, and is consistent exactly when it has none. *)
Lemma verify_policy_consistency_report (fs : Artifacts) (r : Consistency.t) :
  verify_policy_consistency fs = Return r ->
  Consistency.should_fail_ci r = negb (Nat.eqb (length (Consistency.errors r)) 0) /\
  Consistency.consistent r = Nat.eqb (length (Consistency.errors r)) 0.
Proof.
  unfold verify_policy_consistency. intros H.
  repeat match type of H with
         | and_then ?a _ = _ =>
             let x := fresh "x" in
             destruct a as [x|]; cbn [and_then] in H; [|discriminate H]
         end.
  injection H as <-. cbn. split; [|reflexivity].
  destruct (length x0); reflexivity.
Qed.

(** The errors do not depend on the calibration metrics: they only add
    warnings. *)
Lemma verify_policy_consistency_errors (fs : Artifacts) (c : artifact)
    (r r' : Consistency.t) :
  verify_policy_consistency fs = Return r ->
  verify_policy_consistency
    (mkArtifacts (trusted_domains_manifest fs) (trusted_domains_snapshot fs) c)
    = Return r' ->
  Consistency.errors r' = Consistency.errors r.
Proof.
  unfold verify_policy_consistency. cbn [trusted_domains_manifest
    trusted_domains_snapshot calibration_metrics]. intros H H'.
  destruct (match trusted_domains_manifest fs with
            | Absent => _ | Malformed => _ | Loaded _ => _ end) as [x|];
    cbn [and_then] in H, H'; [|discriminate H].
  destruct (match trusted_domains_snapshot fs with
            | Absent => _ | Malformed => _ | Loaded _ => _ end) as [y|];
    cbn [and_then] in H, H'; [|discriminate H].
  repeat match type of H with
         | and_then ?a _ = _ =>
             destruct a; cbn [and_then] in H; [|discriminate H]
         end.
  repeat match type of H' with
         | and_then ?a _ = _ =>
             destruct a; cbn [and_then] in H'; [|discriminate H']
         end.
  injection H as <-. injection H' as <-. reflexivity.
Qed.

Lemma verify_policy_consistency_manifest_absent (fs : Artifacts) :
  trusted_domains_manifest fs = Absent ->
  trusted_domains_snapshot fs <> Malformed ->
  (calibration_metrics fs = Absent \/
   exists d, calibration_metrics fs = Loaded (JObj d)) ->
  exists r,
    verify_policy_consistency fs = Return r /\
    In "Manifest file missing: trusted_domains_manifest.json" (Consistency.errors r) /\
    Consistency.should_fail_ci r = true /\
    Consistency.consistent r = false.
Proof.
  intros Hm Hs Hc. unfold verify_policy_consistency. rewrite Hm. cbn [and_then].
  destruct (trusted_domains_snapshot fs) as [| |s]; [|contradiction|];
    cbn [and_then];
    (destruct Hc as [->|[d ->]]; cbn [and_then json_get];
     eexists; repeat split; cbn; auto).
Qed.

Lemma verify_policy_consistency_calibration_absent (fs : Artifacts)
    (manifest snapshot : list (string * json)) (version recorded reason : json) :
  trusted_domains_manifest fs = Loaded (JObj manifest) ->
  trusted_domains_snapshot fs = Loaded (JObj snapshot) ->
  calibration_metrics fs = Absent ->
  json_get "version" (JObj manifest) = Return version ->
  json_get "change_reason" (JObj manifest) = Return reason ->
  json_get "_manifest_version" (JObj snapshot) = Return recorded ->
  truthy version = true ->
  truthy reason = true ->
  py_eq recorded version = true ->
  verify_policy_consistency fs =
    Return (Consistency.mk true [] ["Calibration metrics file missing"] false).
Proof.
  intros Hm Hs Hc Hv Hr Hrec Tv Tr He. unfold verify_policy_consistency.
  rewrite Hm, Hs, Hc. cbv beta iota. rewrite Hv, Hr. cbn [and_then].
  rewrite Hrec. cbn [and_then]. rewrite Tv, Tr, He. reflexivity.
Qed.

Lemma signals_consistent_run_calls (cs : list call) (w : World) :
  signals_consistent (engine w) -> signals_consistent (engine (run_calls cs w)).
Proof.
  revert w. induction cs as [|c cs IH]; intros w Hw; [exact Hw|].
  cbn [run_calls fold_left]. apply IH, signals_consistent_run_call, Hw.
Qed.

(** Every state an engine started without a state file can reach through its
    public methods has consistent signals. *)
Lemma signals_consistent_started (cs : list call) (w : World) :
  state_file w = None ->
  signals_consistent (engine (run_calls cs (snd (_load_state w)))).
Proof.
  intros Hw. apply signals_consistent_run_calls, signals_consistent_fresh, Hw.
Qed.

(** ** The properties of the specification *)

(** C1.  Recording the event ["suspicious_on_trusted"] freezes the engine on
    the spot, whatever the counter was and whether or not the engine was
    frozen already: the call returns, and afterwards the budget is frozen with
    a non-empty reason, its counter is one higher, and the state file holds
    that budget. *)
Theorem record_safety_event_suspicious_on_trusted_freezes (w : World) :
  let r := record_safety_event "suspicious_on_trusted" w in
  let b := safety_budget (engine (snd r)) in
  fst r = Return tt /\
  is_frozen b = true /\
  freeze_reason b = Some "CRITICAL: SUSPICIOUS verdict on trusted domain" /\
  truthy_str (freeze_reason b) = true /\
  suspicious_on_trusted b = suspicious_on_trusted (safety_budget (engine w)) + 1 /\
  exists f, state_file (snd r) = Some f /\ saved_safety_budget f = Some b.
Proof.
  cbv zeta. unfold record_safety_event.
  cbn -[check_budgets is_budget_exceeded]. unfold bind.
  rewrite check_budgets_frozen by reflexivity.
  cbn -[is_budget_exceeded]. repeat split. eexists. split; reflexivity.
Qed.

(** C2.  While the engine is frozen every override request raises the
    frozen-state error before anything else is looked at, whatever its kind,
    authority, domains, ticket and duration, and leaves the world exactly as
    it found it: no override issued, no counter moved, nothing written.  This
    lasts through any calls of the public methods other than [lift_freeze]. *)
Theorem frozen_engine_rejects_override_requests (w : World) (cs : list call)
    (ty : OverrideType) (au : OverrideAuthority) (domains : list string)
    (why approver : string) (ticket : option string)
    (duration : option timedelta) :
  frozen w ->
  forallb (fun c => negb (is_lift_freeze c)) cs = true ->
  let w' := run_calls cs w in
  frozen w' /\
  request_override ty au domains why approver ticket duration w' =
    (Raise (ValueError (frozen_message (freeze_reason (safety_budget (engine w'))))),
     w').
Proof.
  intros Hw Hcs w'.
  assert (Hw' : frozen w') by (apply run_calls_frozen; assumption).
  split; [exact Hw'|]. apply request_override_frozen, Hw'.
Qed.

(** C3 (the code departs from the specification).  With three overrides already used
    in the window and the engine not frozen, a fourth request is granted: it
    returns an override, the counter goes to four and the engine stays
    unfrozen.  It is the fifth request that raises the budget error and
    freezes the engine. *)
Theorem request_override_fourth_is_granted :
  let r4 := request_override EMERGENCY ON_CALL ["example.com"] "incident"
              "alice" None None (world_of (budget_with_overrides 3)) in
  let r5 := request_override EMERGENCY ON_CALL ["example.com"] "incident"
              "alice" None None (snd r4) in
  returned (fst r4) = true /\
  is_frozen (safety_budget (engine (snd r4))) = false /\
  overrides_used (safety_budget (engine (snd r4))) = 4 /\
  length (overrides (engine (snd r4))) = 1%nat /\
  fst r5 = Raise (ValueError "Override budget exceeded. System frozen.") /\
  is_frozen (safety_budget (engine (snd r5))) = true /\
  length (overrides (engine (snd r5))) = 1%nat.
Proof. cbv zeta. repeat split. Qed.



(** C6.  [lift_freeze] returns; on an engine that is not frozen it changes
    nothing at all; on a frozen engine it leaves a budget that is not frozen,
    has no freeze reason, has its three counters at zero and starts its window
    at the time of the lift, keeps the overrides and the signals, and writes
    that state to the state file. *)
Theorem lift_freeze_resets_window (lifted_by resolution ticket : string) (w : World) :
  let r := lift_freeze lifted_by resolution ticket w in
  let b := safety_budget (engine (snd r)) in
  fst r = Return tt /\
  (is_frozen (safety_budget (engine w)) = false -> snd r = w) /\
  (is_frozen (safety_budget (engine w)) = true ->
     is_frozen b = false /\
     freeze_reason b = None /\
     suspicious_on_trusted b = 0 /\
     overrides_used b = 0 /\
     canary_failures b = 0 /\
     window_start b = clock (clock_reads w) /\
     overrides (engine (snd r)) = overrides (engine w) /\
     canary_signals (engine (snd r)) = canary_signals (engine w) /\
     exists f, state_file (snd r) = Some f /\ saved_safety_budget f = Some b).
Proof.
  cbv zeta. rewrite lift_freeze_run.
  destruct (is_frozen (safety_budget (engine w))); cbn.
  - split; [reflexivity|]. split; [discriminate|]. intros _.
    repeat split. eexists. split; reflexivity.
  - split; [reflexivity|]. split; [reflexivity|discriminate].
Qed.

(** C7.  The calibration adapter maps "healthy" to no penalty and no
    restriction, "degraded" to the penalty 0.20 with restriction and warning,
    "unknown" to the penalty 0.10 with restriction and warning; so PHISHING
    under "degraded" becomes SUSPICIOUS, SAFE under "degraded" stays SAFE,
    PHISHING under "healthy" stays PHISHING, and a verdict other than
    PHISHING passes unchanged under every status. *)
Theorem calibration_adapter_mapping :
  get_calibration_policy_adjustment "healthy"
    = Adjustment.mk 0.0%float false false false None /\
  (let a := get_calibration_policy_adjustment "degraded" in
   Adjustment.confidence_penalty a = 0.20%float /\
   Adjustment.restrict_phishing a = true /\
   Adjustment.require_warning a = true) /\
  (let a := get_calibration_policy_adjustment "unknown" in
   Adjustment.confidence_penalty a = 0.10%float /\
   Adjustment.restrict_phishing a = true /\
   Adjustment.require_warning a = true) /\
  apply_calibration_restriction "PHISHING" "degraded" = "SUSPICIOUS" /\
  apply_calibration_restriction "SAFE" "degraded" = "SAFE" /\
  apply_calibration_restriction "PHISHING" "healthy" = "PHISHING" /\
  (forall verdict status,
     verdict <> "PHISHING" -> apply_calibration_restriction verdict status = verdict).
Proof.
  repeat split.
  intros verdict status Hv. unfold apply_calibration_restriction.
  apply String.eqb_neq in Hv. rewrite Hv, andb_false_r. reflexivity.
Qed.

(** C8.  A report of the verifier fails CI exactly when its error list is not
    empty.  With the manifest absent (and the other two artifacts readable)
    the report fails CI; with only the calibration metrics absent, the
    manifest and the snapshot in agreement, the report does not fail CI and
    carries the warning; and replacing the calibration metrics never changes
    whether a report fails CI. *)
Theorem verify_policy_consistency_fails_ci_on_errors :
  (forall fs r,
     verify_policy_consistency fs = Return r ->
     (Consistency.should_fail_ci r = true <-> Consistency.errors r <> [])) /\
  (forall fs,
     trusted_domains_manifest fs = Absent ->
     trusted_domains_snapshot fs <> Malformed ->
     (calibration_metrics fs = Absent \/
      exists d, calibration_metrics fs = Loaded (JObj d)) ->
     exists r,
       verify_policy_consistency fs = Return r /\
       Consistency.should_fail_ci r = true) /\
  (forall fs manifest snapshot version recorded change_reason,
     trusted_domains_manifest fs = Loaded (JObj manifest) ->
     trusted_domains_snapshot fs = Loaded (JObj snapshot) ->
     calibration_metrics fs = Absent ->
     json_get "version" (JObj manifest) = Return version ->
     json_get "change_reason" (JObj manifest) = Return change_reason ->
     json_get "_manifest_version" (JObj snapshot) = Return recorded ->
     truthy version = true ->
     truthy change_reason = true ->
     py_eq recorded version = true ->
     exists r,
       verify_policy_consistency fs = Return r /\
       Consistency.should_fail_ci r = false /\
       Consistency.errors r = [] /\
       Consistency.warnings r = ["Calibration metrics file missing"]) /\
  (forall fs c r r',
     verify_policy_consistency fs = Return r ->
     verify_policy_consistency
       (mkArtifacts (trusted_domains_manifest fs) (trusted_domains_snapshot fs) c)
       = Return r' ->
     Consistency.should_fail_ci r' = Consistency.should_fail_ci r).
Proof.
  split; [|split; [|split]].
  - intros fs r Hr.
    destruct (verify_policy_consistency_report fs r Hr) as [-> _].
    destruct (Consistency.errors r); cbn; split; congruence.
  - intros fs Hm Hs Hc.
    destruct (verify_policy_consistency_manifest_absent fs Hm Hs Hc)
      as (r & Hr & _ & Hf & _).
    exists r. split; assumption.
  - intros fs manifest snapshot version recorded change_reason
      Hm Hs Hc Hv Hr Hrec Tv Tr He.
    eexists. split.
    + exact (verify_policy_consistency_calibration_absent fs manifest snapshot
               version recorded change_reason Hm Hs Hc Hv Hr Hrec Tv Tr He).
    + repeat split.
  - intros fs c r r' Hr Hr'.
    destruct (verify_policy_consistency_report _ _ Hr) as [-> _].
    destruct (verify_policy_consistency_report _ _ Hr') as [-> _].
    rewrite (verify_policy_consistency_errors fs c r r' Hr Hr'). reflexivity.
Qed.


(** C10.  The adapter fails closed: any status other than exactly "healthy"
    or "degraded" gets the policy of "unknown" (penalty 0.10, restriction,
    warning), and PHISHING under such a status becomes SUSPICIOUS. *)
Theorem calibration_status_fails_closed (status : string) :
  status <> "healthy" ->
  status <> "degraded" ->
  get_calibration_policy_adjustment status
    = get_calibration_policy_adjustment "unknown" /\
  get_calibration_policy_adjustment status
    = Adjustment.mk 0.10%float true true true
        (Some "Calibration status unknown. Results may be unreliable.") /\
  apply_calibration_restriction "PHISHING" status = "SUSPICIOUS".
Proof.
  intros Hh Hd. apply String.eqb_neq in Hh, Hd.
  unfold apply_calibration_restriction, get_calibration_policy_adjustment.
  rewrite Hh, Hd. repeat split.
Qed.

(** ** Persistence *)

Lemma in_sync_save (w : World) : in_sync (snd (_save_state w)).
Proof.
  rewrite _save_state_run. eexists. split; [reflexivity|]. repeat split.
Qed.

Lemma in_sync_trigger_freeze (why : string) (w : World) :
  in_sync (snd (_trigger_freeze why w)).
Proof.
  rewrite _trigger_freeze_run. eexists. split; [reflexivity|]. repeat split.
Qed.

(** A restart from a state file in step with the engine changes nothing. *)
Lemma _load_state_in_sync (w : World) : in_sync w -> _load_state w = (Return tt, w).
Proof.
  intros (f & Hf & Ho & Hs & Hb). unfold _load_state. rewrite Hf, Hb.
  unfold put_engine. rewrite Ho, Hs.
  destruct w as [[ovs sigs b] sf cr ur]. cbn in *. rewrite Hf. reflexivity.
Qed.

Lemma request_override_saved (ty : OverrideType) (au : OverrideAuthority)
    (domains : list string) (why approver : string) (ticket : option string)
    (duration : option timedelta) (w : World) :
  saved_or_untouched w
    (snd (request_override ty au domains why approver ticket duration w)).
Proof.
  unfold request_override. rewrite bind_run, get_budget_run.
  destruct (is_frozen (safety_budget (engine w))); [left; split; reflexivity|].
  rewrite bind_run. unfold lift.
  destruct (_validate_authority ty au ticket) as [[]|e]; [|left; split; reflexivity].
  rewrite bind_run, _calculate_expiration_run.
  destruct (OVERRIDE_MAX_DURATION ty) as [m|];
    rewrite bind_run, get_budget_run; cbn -[budget_limit Z.min];
    destruct (budget_limit "overrides_per_window" <? _);
    right; (eexists; split; [reflexivity|]; repeat split).
Qed.

Lemma get_active_overrides_saved (w : World) :
  in_sync (snd (get_active_overrides w)).
Proof.
  unfold get_active_overrides. rewrite bind_run, get_engine_run, bind_run.
  destruct (scan_overrides_run (overrides (engine w)) w) as (r & n & ->).
  eexists; split; [reflexivity|]; repeat split.
Qed.

Lemma get_safety_status_world (w : World) :
  snd (get_safety_status w) = snd (get_active_overrides w).
Proof.
  unfold get_safety_status. rewrite bind_run, get_budget_run, bind_run.
  destruct (get_active_overrides w) as [[a|e] w']; reflexivity.
Qed.

Lemma revoke_override_saved (oid revoked_by why : string) (w : World) :
  saved_or_untouched w (snd (revoke_override oid revoked_by why w)).
Proof.
  unfold revoke_override. rewrite bind_run, get_engine_run.
  destruct (revoke_first oid (overrides (engine w)));
    [right; eexists; split; [reflexivity|]; repeat split | left; split; reflexivity].
Qed.

Lemma record_canary_result_saved (dom verdict : string) (size : Z) (w : World) :
  in_sync (snd (record_canary_result dom verdict size w)).
Proof.
  unfold record_canary_result.
  rewrite bind_run, get_engine_run. rewrite bind_run. cbn [now].
  generalize (match canary_signals (engine w) !! dom with
              | Some s => s | None => new_signal dom end). intros s.
  destruct (String.eqb verdict "PHISHING");
    unfold put_signal, modify_budget;
    repeat (rewrite bind_run;
            first [rewrite get_engine_run | rewrite get_budget_run | idtac];
            cbn [put_engine ret engine overrides canary_signals safety_budget]).
  - destruct (get_flag "canary_failures" _);
      [rewrite _trigger_freeze_run|]; cbv zeta; unfold ret;
      rewrite bind_run, _save_state_run;
      (eexists; split; [reflexivity|]; repeat split).
  - rewrite _save_state_run. eexists; split; [reflexivity|]; repeat split.
Qed.

Lemma record_safety_event_saved (event_type : string) (w : World) :
  in_sync (snd (record_safety_event event_type w)).
Proof.
  unfold record_safety_event. rewrite bind_run.
  match goal with |- context [match ?c w with _ => _ end] =>
    assert (Hc : exists w1, c w = (Return tt, w1)) end.
  { destruct (String.eqb event_type "suspicious_on_trusted");
      [|destruct (String.eqb event_type "override");
        [|destruct (String.eqb event_type "canary_failure")]];
      eexists; reflexivity. }
  destruct Hc as (w1 & ->). rewrite bind_run, get_budget_run, bind_run.
  pose proof (check_budgets_keeps_frozen
                (is_budget_exceeded (safety_budget (engine w1))) w1) as [Hr _].
  destruct (check_budgets _ w1) as [[[]|e] w2]; cbn in Hr; [|discriminate Hr].
  apply in_sync_save.
Qed.

Lemma lift_freeze_saved (lifted_by resolution ticket : string) (w : World) :
  saved_or_untouched w (snd (lift_freeze lifted_by resolution ticket w)).
Proof.
  rewrite lift_freeze_run. destruct (is_frozen (safety_budget (engine w))).
  - right. eexists; split; [reflexivity|]; repeat split.
  - left. split; reflexivity.
Qed.

Lemma promote_canary_untouched (dom approver ticket : string) (w : World) :
  engine (snd (promote_canary dom approver ticket w)) = engine w /\
  state_file (snd (promote_canary dom approver ticket w)) = state_file w.
Proof.
  unfold promote_canary. rewrite bind_run, get_engine_run.
  destruct (Eligibility.eligible _); split; reflexivity.
Qed.

Lemma run_call_saved (c : call) (w : World) : saved_or_untouched w (run_call c w).
Proof.
  destruct c; cbn [run_call].
  - apply request_override_saved.
  - right. apply get_active_overrides_saved.
  - apply revoke_override_saved.
  - right. apply record_canary_result_saved.
  - left. apply promote_canary_untouched.
  - right. apply record_safety_event_saved.
  - apply lift_freeze_saved.
  - right. rewrite get_safety_status_world. apply get_active_overrides_saved.
Qed.

Lemma run_call_in_sync (c : call) (w : World) :
  in_sync w -> in_sync (run_call c w).
Proof.
  intros (f & Hf & Ho & Hs & Hb).
  destruct (run_call_saved c w) as [[He Hsf]|H]; [|exact H].
  exists f. rewrite He, Hsf. repeat split; assumption.
Qed.

Lemma run_step_in_sync (s : step) (w : World) :
  in_sync w -> in_sync (run_step s w).
Proof.
  intros Hw. destruct s as [c|]; cbn [run_step].
  - apply run_call_in_sync, Hw.
  - rewrite (_load_state_in_sync w Hw). exact Hw.
Qed.

Lemma run_steps_in_sync (ss : list step) (w : World) :
  in_sync w -> in_sync (run_steps ss w).
Proof.
  revert w. induction ss as [|s ss IH]; intros w Hw; [exact Hw|].
  cbn [run_steps fold_left]. apply IH, run_step_in_sync, Hw.
Qed.

Lemma run_steps_frozen (ss : list step) (w : World) :
  forallb (fun s => negb (lifts_freeze s)) ss = true ->
  in_sync w -> frozen w -> frozen (run_steps ss w).
Proof.
  revert w. induction ss as [|s ss IH]; intros w Hss Hs Hw; [exact Hw|].
  cbn in Hss. apply andb_prop in Hss as [H1 Hss].
  cbn [run_steps fold_left]. apply IH; [exact Hss|apply run_step_in_sync, Hs|].
  destruct s as [c|]; cbn [run_step].
  - apply run_call_frozen; [|exact Hw].
    cbn in H1. destruct (is_lift_freeze c); [discriminate|reflexivity].
  - rewrite (_load_state_in_sync w Hs). exact Hw.
Qed.

(** X1.  No call of a public method leaves a change unsaved: after the call,
    whether it returned or raised, either the engine and the state file are
    what they were, or the state file holds the engine as the call left it. *)
Theorem public_calls_save_their_changes (c : call) (w : World) :
  (engine (run_call c w) = engine w /\ state_file (run_call c w) = state_file w) \/
  in_sync (run_call c w).
Proof. exact (run_call_saved c w). Qed.

(** X2.  Once the state file holds the engine, it keeps holding it through
    any calls and restarts, and a restart then changes nothing: the new
    process gets the overrides, the signals and the budget of the old one. *)
Theorem restart_restores_the_engine (ss : list step) (w : World) :
  in_sync w ->
  let w' := run_steps ss w in
  in_sync w' /\ _load_state w' = (Return tt, w').
Proof.
  intros Hw w'. assert (Hw' : in_sync w') by (apply run_steps_in_sync, Hw).
  split; [exact Hw'|apply _load_state_in_sync, Hw'].
Qed.

(** X3.  A freeze outlives the process: after [_trigger_freeze], through any
    calls other than [lift_freeze] and any restarts from the state file, the
    engine is frozen and every override request raises the frozen-state
    error. *)
Theorem freeze_survives_restarts (why : string) (ss : list step) (w : World)
    (ty : OverrideType) (au : OverrideAuthority) (domains : list string)
    (reason approver : string) (ticket : option string)
    (duration : option timedelta) :
  forallb (fun s => negb (lifts_freeze s)) ss = true ->
  let w' := run_steps ss (snd (_trigger_freeze why w)) in
  frozen w' /\
  request_override ty au domains reason approver ticket duration w' =
    (Raise (ValueError (frozen_message (freeze_reason (safety_budget (engine w'))))),
     w').
Proof.
  intros Hss w'.
  assert (Hw' : frozen w').
  { apply run_steps_frozen; [exact Hss|apply in_sync_trigger_freeze|].
    apply _trigger_freeze_frozen. }
  split; [exact Hw'|apply request_override_frozen, Hw'].
Qed.
(** ** Budgets *)

Lemma check_budgets_unfrozen (l : list (string * bool)) (w : World) :
  is_frozen (safety_budget (engine w)) = false ->
  safety_budget (engine (snd (check_budgets l w))) =
    match first_exceeded l with
    | Some k =>
        set_freeze_reason (Some ("Safety budget exceeded: " +:+ k))
          (set_is_frozen true (safety_budget (engine w)))
    | None => safety_budget (engine w)
    end.
Proof.
  revert w. induction l as [|[k v] l IH]; intros w Hw; [reflexivity|].
  rewrite check_budgets_cons. rewrite Hw. cbn [negb first_exceeded].
  rewrite andb_true_r. destruct v.
  - rewrite check_budgets_frozen by apply _trigger_freeze_frozen.
    rewrite _trigger_freeze_run. reflexivity.
  - apply IH, Hw.
Qed.

Lemma record_safety_event_budget (event_type : string) (w : World) :
  event_type <> "suspicious_on_trusted" ->
  fst (record_safety_event event_type w) = Return tt /\
  safety_budget (engine (snd (record_safety_event event_type w))) =
    (let b := count_event event_type (safety_budget (engine w)) in
     if is_frozen b then b
     else match first_exceeded (is_budget_exceeded b) with
          | Some k =>
              set_freeze_reason (Some ("Safety budget exceeded: " +:+ k))
                (set_is_frozen true b)
          | None => b
          end).
Proof.
  intros Hev. apply String.eqb_neq in Hev.
  unfold record_safety_event, count_event. rewrite Hev, bind_run.
  match goal with |- context [match ?c w with _ => _ end] =>
    assert (Hc : exists w1, c w = (Return tt, w1) /\
              safety_budget (engine w1) =
                (if String.eqb event_type "override"
                 then set_overrides_used
                        (overrides_used (safety_budget (engine w)) + 1)
                        (safety_budget (engine w))
                 else if String.eqb event_type "canary_failure"
                 then set_canary_failures
                        (canary_failures (safety_budget (engine w)) + 1)
                        (safety_budget (engine w))
                 else safety_budget (engine w))) end.
  { destruct (String.eqb event_type "override");
      [|destruct (String.eqb event_type "canary_failure")];
      eexists; split; reflexivity. }
  destruct Hc as (w1 & -> & Hb1). rewrite <- Hb1. clear Hb1.
  rewrite bind_run, get_budget_run, bind_run.
  pose proof (check_budgets_keeps_frozen
                (is_budget_exceeded (safety_budget (engine w1))) w1) as [Hr Hk].
  pose proof (check_budgets_unfrozen
                (is_budget_exceeded (safety_budget (engine w1))) w1) as Hu.
  pose proof (check_budgets_frozen
                (is_budget_exceeded (safety_budget (engine w1))) w1) as Hf.
  cbv zeta.
  destruct (is_frozen (safety_budget (engine w1))) eqn:Hfz.
  - rewrite Hf by exact Hfz. split; reflexivity.
  - specialize (Hu eq_refl).
    destruct (check_budgets _ w1) as [[[]|e] w2]; cbn in Hr; [|discriminate Hr].
    cbn in Hu. split; [reflexivity|]. rewrite _save_state_run. exact Hu.
Qed.
Lemma first_exceeded_none (b : SafetyBudgetStatus) :
  first_exceeded (is_budget_exceeded b) = None <->
  suspicious_on_trusted b <= 0 /\ overrides_used b <= 3 /\ canary_failures b <= 5.
Proof.
  unfold is_budget_exceeded. cbn -[Z.ltb].
  destruct (Z.ltb_spec 0 (suspicious_on_trusted b));
    destruct (Z.ltb_spec 3 (overrides_used b));
    destruct (Z.ltb_spec 5 (canary_failures b));
    split; intros Hx; try discriminate Hx; try reflexivity; lia.
Qed.

(** X4.  An event other than "suspicious_on_trusted" returns after moving
    its counter ("override", "canary_failure"; any other name moves none).
    On a frozen engine nothing else changes.  On an engine that is not
    frozen the budgets are then compared, and the engine ends frozen exactly
    when a counter stands above its limit (0, 3 and 5), the reason naming the
    first such budget in the order suspicious_on_trusted,
    overrides_per_window, canary_failures. *)
Theorem record_safety_event_counts_then_freezes (event_type : string) (w : World) :
  event_type <> "suspicious_on_trusted" ->
  let b := count_event event_type (safety_budget (engine w)) in
  let b' := safety_budget (engine (snd (record_safety_event event_type w))) in
  fst (record_safety_event event_type w) = Return tt /\
  (is_frozen (safety_budget (engine w)) = true -> b' = b) /\
  (is_frozen (safety_budget (engine w)) = false ->
   (is_frozen b' = true <->
    0 < suspicious_on_trusted b \/ 3 < overrides_used b \/ 5 < canary_failures b) /\
   b' = match first_exceeded (is_budget_exceeded b) with
        | Some k =>
            set_freeze_reason (Some ("Safety budget exceeded: " +:+ k))
              (set_is_frozen true b)
        | None => b
        end).
Proof.
  intros Hev. cbv zeta.
  destruct (record_safety_event_budget event_type w Hev) as [Hr Hb].
  cbv zeta in Hb. split; [exact Hr|].
  assert (Hfz : is_frozen (count_event event_type (safety_budget (engine w)))
                = is_frozen (safety_budget (engine w))).
  { unfold count_event. destruct (String.eqb event_type "override");
      [|destruct (String.eqb event_type "canary_failure")]; reflexivity. }
  rewrite Hfz in Hb. split.
  - intros Hf. rewrite Hf in Hb. exact Hb.
  - intros Hf. rewrite Hf in Hb. split; [|exact Hb]. rewrite Hb.
    pose proof (first_exceeded_none
                  (count_event event_type (safety_budget (engine w)))) as Hn.
    destruct (first_exceeded _) as [k|].
    + split; [intros _|reflexivity].
      destruct (Z.ltb_spec 0 (suspicious_on_trusted
                  (count_event event_type (safety_budget (engine w)))));
        [auto|].
      destruct (Z.ltb_spec 3 (overrides_used
                  (count_event event_type (safety_budget (engine w)))));
        [auto|].
      destruct (Z.ltb_spec 5 (canary_failures
                  (count_event event_type (safety_budget (engine w)))));
        [auto|].
      assert (Some k = None) by (apply Hn; lia). discriminate.
    + rewrite Hfz, Hf. split; [discriminate|].
      intros H. destruct Hn as [Hn _]. specialize (Hn eq_refl). lia.
Qed.

Lemma record_safety_event_suspicious_frozen (w : World) :
  frozen (snd (record_safety_event "suspicious_on_trusted" w)).
Proof.
  unfold record_safety_event.
  cbn -[check_budgets is_budget_exceeded]. unfold bind.
  rewrite check_budgets_frozen by reflexivity. reflexivity.
Qed.

Lemma request_override_within_budget (ty : OverrideType) (au : OverrideAuthority)
    (domains : list string) (why approver : string) (ticket : option string)
    (duration : option timedelta) (w : World) :
  within_budget w ->
  within_budget (snd (request_override ty au domains why approver ticket duration w)).
Proof.
  intros Hw. unfold request_override. rewrite bind_run, get_budget_run.
  destruct (is_frozen (safety_budget (engine w))) eqn:Hf; [exact Hw|].
  rewrite bind_run. unfold lift.
  destruct (_validate_authority ty au ticket) as [[]|e]; [|exact Hw].
  rewrite bind_run, _calculate_expiration_run.
  specialize (Hw Hf).
  destruct (OVERRIDE_MAX_DURATION ty) as [m|];
    rewrite bind_run, get_budget_run; cbn -[budget_limit Z.min Z.ltb];
    (destruct (Z.ltb_spec (budget_limit "overrides_per_window")
                 (overrides_used (safety_budget (engine w)))) as [Hx|Hx];
     [intros Hc; discriminate Hc
     |intros _; cbn; change (budget_limit "overrides_per_window") with 3 in Hx; lia]).
Qed.

Lemma record_canary_result_budget_run (dom verdict : string) (size : Z) (w : World) :
  safety_budget (engine (snd (record_canary_result dom verdict size w))) =
    if String.eqb verdict "PHISHING" then
      let b := set_canary_failures
                 (canary_failures (safety_budget (engine w)) + 1)
                 (safety_budget (engine w)) in
      if 5 <? canary_failures b
      then set_freeze_reason (Some "Canary failure budget exceeded")
             (set_is_frozen true b)
      else b
    else safety_budget (engine w).
Proof.
  unfold record_canary_result.
  rewrite bind_run, get_engine_run. rewrite bind_run. cbn [now].
  generalize (match canary_signals (engine w) !! dom with
              | Some s => s | None => new_signal dom end). intros s.
  destruct (String.eqb verdict "PHISHING");
    unfold put_signal, modify_budget;
    repeat (rewrite bind_run;
            first [rewrite get_engine_run | rewrite get_budget_run | idtac];
            cbn [put_engine ret engine overrides canary_signals safety_budget]).
  - change (get_flag "canary_failures" (is_budget_exceeded ?b))
      with (5 <? canary_failures b).
    cbv zeta.
    destruct (5 <? canary_failures _);
      [rewrite _trigger_freeze_run|]; cbv zeta; unfold ret;
      rewrite bind_run, _save_state_run; reflexivity.
  - rewrite _save_state_run. reflexivity.
Qed.

Lemma record_canary_result_within_budget (dom verdict : string) (size : Z)
    (w : World) :
  within_budget w -> within_budget (snd (record_canary_result dom verdict size w)).
Proof.
  intros Hw. unfold within_budget. rewrite record_canary_result_budget_run.
  destruct (String.eqb verdict "PHISHING"); [|exact Hw]. cbv zeta.
  destruct (Z.ltb_spec 5 (canary_failures
              (set_canary_failures (canary_failures (safety_budget (engine w)) + 1)
                 (safety_budget (engine w))))) as [Hx|Hx].
  - intros Hc. discriminate Hc.
  - cbn in *. intros Hf. specialize (Hw Hf). lia.
Qed.

Lemma record_safety_event_within_budget (event_type : string) (w : World) :
  within_budget w -> within_budget (snd (record_safety_event event_type w)).
Proof.
  intros Hw. destruct (String.eqb_spec event_type "suspicious_on_trusted") as [->|Hev].
  - intros Hf. pose proof (record_safety_event_suspicious_frozen w) as Hz.
    unfold frozen in Hz. congruence.
  - unfold within_budget.
    destruct (record_safety_event_budget event_type w Hev) as [_ ->]. cbv zeta.
    assert (Hfz : is_frozen (count_event event_type (safety_budget (engine w)))
                  = is_frozen (safety_budget (engine w))).
    { unfold count_event. destruct (String.eqb event_type "override");
        [|destruct (String.eqb event_type "canary_failure")]; reflexivity. }
    rewrite Hfz. destruct (is_frozen (safety_budget (engine w))) eqn:Hf.
    + rewrite Hfz. intros Hc. discriminate Hc.
    + pose proof (first_exceeded_none
                    (count_event event_type (safety_budget (engine w)))) as Hn.
      destruct (first_exceeded _) as [k|].
      * intros Hc. discriminate Hc.
      * intros _. destruct Hn as [Hn _]. specialize (Hn eq_refl). lia.
Qed.

Lemma lift_freeze_within_budget (lifted_by resolution ticket : string) (w : World) :
  within_budget w ->
  within_budget (snd (lift_freeze lifted_by resolution ticket w)).
Proof.
  intros Hw. rewrite lift_freeze_run.
  destruct (is_frozen (safety_budget (engine w))); [|exact Hw].
  intros _. cbn. lia.
Qed.

Lemma run_call_within_budget (c : call) (w : World) :
  within_budget w -> within_budget (run_call c w).
Proof.
  intros Hw. destruct c; cbn [run_call].
  - apply request_override_within_budget, Hw.
  - unfold within_budget. rewrite get_active_overrides_budget. exact Hw.
  - unfold within_budget. rewrite revoke_override_budget. exact Hw.
  - apply record_canary_result_within_budget, Hw.
  - unfold within_budget. rewrite promote_canary_world. exact Hw.
  - apply record_safety_event_within_budget, Hw.
  - apply lift_freeze_within_budget, Hw.
  - unfold within_budget. rewrite get_safety_status_budget. exact Hw.
Qed.

Lemma _load_state_fresh (w : World) :
  state_file w = None ->
  _load_state w =
    (Return tt,
     mkWorld (mkEngine [] ∅ (new_budget (clock (clock_reads w)))) None
       (S (clock_reads w)) (urandom_reads w)).
Proof.
  intros Hf. unfold _load_state. rewrite Hf. unfold bind, now, put_engine.
  cbn [state_file clock_reads urandom_reads]. rewrite Hf. reflexivity.
Qed.

(** X5.  An engine started without a state file stays within its budgets for
    as long as it is not frozen, whatever public methods are called: no
    suspicious verdict on a trusted domain, at most five canary failures, and
    at most four overrides used in the window (the request that meets a
    counter of four is the one refused). *)
Theorem unfrozen_engine_is_within_budget (cs : list call) (w : World) :
  state_file w = None ->
  within_budget (run_calls cs (snd (_load_state w))).
Proof.
  intros Hf. rewrite (_load_state_fresh w Hf). cbn [snd].
  assert (H0 : within_budget
                 (mkWorld (mkEngine [] ∅ (new_budget (clock (clock_reads w)))) None
                    (S (clock_reads w)) (urandom_reads w)))
    by (intros _; cbn; lia).
  revert H0. generalize (mkWorld (mkEngine [] ∅ (new_budget (clock (clock_reads w))))
                           None (S (clock_reads w)) (urandom_reads w)).
  induction cs as [|c cs IH]; intros w0 H0; [exact H0|].
  cbn [run_calls fold_left]. apply IH, run_call_within_budget, H0.
Qed.
(** ** Canary signals over time *)

Lemma record_canary_result_signals (dom verdict : string) (size : Z) (w : World) :
  let s := signal_of (engine w) dom in
  let s' :=
    if String.eqb verdict "PHISHING" then
      mkCanarySignal (domain s) (test_runs s + 1) (passes s) (failures s + 1)
        (sample_size s + size) (Some (clock (clock_reads w))) (Some verdict) 0
    else
      mkCanarySignal (domain s) (test_runs s + 1) (passes s + 1) (failures s)
        (sample_size s + size) (Some (clock (clock_reads w))) (Some verdict)
        (consecutive_passes s + 1) in
  fst (record_canary_result dom verdict size w) = Return s' /\
  canary_signals (engine (snd (record_canary_result dom verdict size w)))
    = <[dom := s']> (canary_signals (engine w)).
Proof.
  cbv zeta. destruct (String.eqb_spec verdict "PHISHING") as [->|Hv].
  - destruct (record_canary_result_phishing dom size w) as (w' & -> & Hm & _).
    split; [reflexivity|exact Hm].
  - destruct (record_canary_result_pass dom verdict size w Hv) as (w' & -> & Hm & _).
    split; [reflexivity|exact Hm].
Qed.

Lemma signal_of_counted (e : GovernanceEngine) (dom : string) :
  signals_counted e ->
  0 <= passes (signal_of e dom) /\ 0 <= failures (signal_of e dom) /\
  test_runs (signal_of e dom) = passes (signal_of e dom) + failures (signal_of e dom).
Proof.
  intros He. unfold signal_of.
  destruct (canary_signals e !! dom) as [s|] eqn:Hs; [exact (He dom s Hs)|].
  cbn. lia.
Qed.

Lemma record_canary_result_counted (dom verdict : string) (size : Z) (w : World) :
  signals_counted (engine w) ->
  signals_counted (engine (snd (record_canary_result dom verdict size w))).
Proof.
  intros He. pose proof (signal_of_counted (engine w) dom He) as Hs.
  destruct (record_canary_result_signals dom verdict size w) as [_ Hm].
  cbv zeta in Hm. intros d s. rewrite Hm, lookup_insert.
  destruct (decide (dom = d)); [|apply He].
  intros [= <-]. destruct (String.eqb verdict "PHISHING"); cbn; lia.
Qed.

Lemma run_call_counted (c : call) (w : World) :
  signals_counted (engine w) -> signals_counted (engine (run_call c w)).
Proof.
  intros He. destruct c; cbn [run_call].
  - unfold signals_counted. rewrite request_override_signals. exact He.
  - unfold signals_counted. rewrite get_active_overrides_signals. exact He.
  - unfold signals_counted. rewrite revoke_override_signals. exact He.
  - apply record_canary_result_counted, He.
  - rewrite promote_canary_world. exact He.
  - unfold signals_counted. rewrite record_safety_event_signals. exact He.
  - unfold signals_counted. rewrite lift_freeze_signals. exact He.
  - unfold signals_counted. rewrite get_safety_status_signals. exact He.
Qed.





Lemma signals_counted_started (cs : list call) (w : World) :
  state_file w = None ->
  signals_counted (engine (run_calls cs (snd (_load_state w)))).
Proof.
  intros Hf. rewrite (_load_state_fresh w Hf). cbn [snd].
  assert (H0 : signals_counted
                 (engine (mkWorld (mkEngine [] ∅ (new_budget (clock (clock_reads w))))
                            None (S (clock_reads w)) (urandom_reads w)))).
  { intros d s. cbn [engine]. cbn [canary_signals]. rewrite lookup_empty.
    discriminate. }
  revert H0. generalize (mkWorld (mkEngine [] ∅ (new_budget (clock (clock_reads w))))
                           None (S (clock_reads w)) (urandom_reads w)).
  induction cs as [|c cs IH]; intros w0 H0; [exact H0|].
  cbn [run_calls fold_left]. apply IH, run_call_counted, H0.
Qed.

(** The signal of a domain after a run of results other than PHISHING. *)
Lemma record_passes_signal (dom verdict : string) (sizes : list Z) (w : World) :
  verdict <> "PHISHING" ->
  let s0 := signal_of (engine w) dom in
  let w' := run_calls (map (fun size => RecordCanaryResult dom verdict size) sizes) w in
  let s := signal_of (engine w') dom in
  test_runs s = test_runs s0 + Z.of_nat (length sizes) /\
  passes s = passes s0 + Z.of_nat (length sizes) /\
  failures s = failures s0 /\
  sample_size s = sample_size s0 + total sizes /\
  consecutive_passes s = consecutive_passes s0 + Z.of_nat (length sizes) /\
  (sizes <> [] -> canary_signals (engine w') !! dom = Some s).
Proof.
  intros Hv. cbv zeta. revert w.
  induction sizes as [|size sizes IH]; intros w.
  - cbn. repeat split; try lia. congruence.
  - cbn [map run_calls fold_left run_call].
    destruct (record_canary_result_signals dom verdict size w) as [_ Hm].
    cbv zeta in Hm. apply String.eqb_neq in Hv. rewrite Hv in Hm.
    apply String.eqb_neq in Hv.
    set (w1 := snd (record_canary_result dom verdict size w)) in *.
    assert (H1 : signal_of (engine w1) dom =
                 mkCanarySignal (domain (signal_of (engine w) dom))
                   (test_runs (signal_of (engine w) dom) + 1)
                   (passes (signal_of (engine w) dom) + 1)
                   (failures (signal_of (engine w) dom))
                   (sample_size (signal_of (engine w) dom) + size)
                   (Some (clock (clock_reads w))) (Some verdict)
                   (consecutive_passes (signal_of (engine w) dom) + 1)).
    { unfold signal_of at 1. rewrite Hm, lookup_insert_eq. reflexivity. }
    destruct (IH w1) as (Hr & Hp & Hf & Hs & Hc & Hl).
    fold (run_calls (map (fun size => RecordCanaryResult dom verdict size) sizes) w1)
      in *.
    rewrite H1 in Hr, Hp, Hf, Hs, Hc. cbn in Hr, Hp, Hf, Hs, Hc.
    cbn [length total fold_right]. fold (total sizes).
    repeat split; try lia.
    intros _. destruct sizes as [|size' sizes']; [|apply Hl; discriminate].
    cbn [map run_calls fold_left]. unfold signal_of. rewrite Hm, lookup_insert_eq.
    reflexivity.
Qed.

(** X7.  How a new domain earns eligibility: after a run of results other
    than PHISHING for a domain the engine had no signal for, the domain is
    eligible exactly when the run has at least 5 results and their sample
    sizes add up to at least 100. *)
Theorem clean_runs_make_eligible (dom verdict : string) (sizes : list Z)
    (w : World) :
  verdict <> "PHISHING" ->
  canary_signals (engine w) !! dom = None ->
  let w' := run_calls (map (fun size => RecordCanaryResult dom verdict size) sizes) w in
  Eligibility.eligible (check_promotion_eligibility (engine w') dom) = true <->
  5 <= Z.of_nat (length sizes) /\ 100 <= total sizes.
Proof.
  intros Hv Hn w'.
  destruct (record_passes_signal dom verdict sizes w Hv)
    as (Hr & Hp & Hf & Hs & Hc & Hl).
  fold w' in Hr, Hp, Hf, Hs, Hc, Hl.
  assert (H0 : signal_of (engine w) dom = new_signal dom)
    by (unfold signal_of; rewrite Hn; reflexivity).
  rewrite H0 in Hr, Hp, Hf, Hs, Hc. cbn in Hr, Hp, Hf, Hs, Hc.
  rewrite check_promotion_eligibility_eligible.
  destruct sizes as [|size sizes].
  - subst w'. cbn [map run_calls fold_left]. rewrite Hn. cbn. split; [discriminate|lia].
  - rewrite (Hl ltac:(discriminate)). rewrite is_promotable_iff.
    rewrite Hr, Hs, Hc.
    assert (Hrate : (1 <= pass_rate (signal_of (engine w') dom))%Q).
    { apply Qle_bool_iff, pass_rate_ge_1; rewrite Hr; [|rewrite Hp; lia].
      cbn [length]. lia. }
    split; [intros (H5 & H100 & _); split; assumption|].
    intros (H5 & H100). repeat split; assumption.
Qed.

(** X8.  What one canary result does to the rest of the engine.  The call
    returns; the signals of the other domains are untouched.  A result other
    than PHISHING leaves the budget alone.  A PHISHING result adds one to the
    canary failures of the window and, when five were already counted,
    freezes the engine with the reason "Canary failure budget exceeded",
    replacing the reason of an engine that was frozen already. *)
Theorem record_canary_result_charges_the_budget (dom verdict : string) (size : Z)
    (w : World) :
  let b := safety_budget (engine w) in
  let w' := snd (record_canary_result dom verdict size w) in
  let b' := safety_budget (engine w') in
  returned (fst (record_canary_result dom verdict size w)) = true /\
  (forall dom', dom' <> dom ->
     canary_signals (engine w') !! dom' = canary_signals (engine w) !! dom') /\
  overrides (engine w') = overrides (engine w) /\
  (verdict <> "PHISHING" -> b' = b) /\
  (verdict = "PHISHING" ->
     canary_failures b' = canary_failures b + 1 /\
     suspicious_on_trusted b' = suspicious_on_trusted b /\
     overrides_used b' = overrides_used b /\
     (is_frozen b' = true <-> is_frozen b = true \/ 5 <= canary_failures b) /\
     (5 <= canary_failures b ->
        freeze_reason b' = Some "Canary failure budget exceeded") /\
     (canary_failures b < 5 -> freeze_reason b' = freeze_reason b)).
Proof.
  clear strftime.
  cbv zeta.
  destruct (record_canary_result_signals dom verdict size w) as [Hr Hm].
  cbv zeta in Hr, Hm.
  split; [rewrite Hr; reflexivity|].
  split; [intros dom' Hne; rewrite Hm; apply lookup_insert_ne; congruence|].
  split.
  { destruct (String.eqb_spec verdict "PHISHING") as [->|Hv].
    - destruct (record_canary_result_phishing dom size w) as (w' & -> & _ & Ho & _).
      exact Ho.
    - destruct (record_canary_result_pass dom verdict size w Hv)
        as (w' & -> & _ & Ho & _).
      exact Ho. }
  rewrite record_canary_result_budget_run.
  split.
  - intros Hv. apply String.eqb_neq in Hv. rewrite Hv. reflexivity.
  - intros ->. cbn [String.eqb Ascii.eqb Bool.eqb]. cbv zeta.
    cbn [canary_failures set_canary_failures].
    destruct (Z.ltb_spec 5 (canary_failures (safety_budget (engine w)) + 1));
      cbn; repeat split; try lia; try tauto; try (intros; lia).
    + intros [Hf|Hc]; [exact Hf|lia].
Qed.
(** ** Promotion *)

Lemma check_promotion_eligibility_signal (e : GovernanceEngine) (dom : string) :
  Eligibility.signal (check_promotion_eligibility e dom) = canary_signals e !! dom.
Proof.
  unfold check_promotion_eligibility.
  destruct (canary_signals e !! dom) as [s|]; [|reflexivity].
  destruct (negb (has_sufficient_signal s)); [reflexivity|].
  destruct (consecutive_passes s <? CANARY_MIN_PASSES); [reflexivity|].
  destruct (Qlt_bool (pass_rate s) 1); reflexivity.
Qed.

(** X9.  Promotion is a read-only decision: [promote_canary] never changes
    the engine or the state file.  It returns a record exactly when the
    domain is eligible, whatever the approver and the ticket are (they are
    not examined, so empty ones pass), and the record carries the domain, the
    time, the approver, the ticket and the signal as it stands; otherwise it
    raises "Cannot promote: " followed by the reason of the eligibility
    report and leaves the world as it was. *)
Theorem promote_canary_is_read_only (dom approver ticket : string) (w : World) :
  let report := check_promotion_eligibility (engine w) dom in
  let r := promote_canary dom approver ticket w in
  engine (snd r) = engine w /\
  state_file (snd r) = state_file w /\
  returned (fst r) = Eligibility.eligible report /\
  (Eligibility.eligible report = true ->
   fst r = Return (Promotion.mk dom (clock (clock_reads w)) approver ticket
                     (canary_signals (engine w) !! dom))) /\
  (Eligibility.eligible report = false ->
   r = (Raise (ValueError ("Cannot promote: " +:+ Eligibility.reason report)), w)).
Proof.
  cbv zeta. unfold promote_canary. rewrite bind_run, get_engine_run.
  rewrite <- check_promotion_eligibility_signal.
  destruct (Eligibility.eligible (check_promotion_eligibility (engine w) dom));
    cbn; repeat split; try discriminate; auto.
Qed.
(** ** The verifier's verdict *)

(** X10.  What the verifier's report means.  It is consistent exactly when
    the manifest and the snapshot are both present as objects, the manifest
    has a true-valued "version" and "change_reason", and the snapshot's
    "_manifest_version" equals the manifest's "version"; it carries no
    warning exactly when the calibration metrics are present with the status
    "healthy". *)
Theorem verify_policy_consistency_verdict (fs : Artifacts) (r : Consistency.t) :
  verify_policy_consistency fs = Return r ->
  (Consistency.consistent r = true <->
   exists manifest snapshot version change_reason recorded,
     trusted_domains_manifest fs = Loaded (JObj manifest) /\
     trusted_domains_snapshot fs = Loaded (JObj snapshot) /\
     json_get "version" (JObj manifest) = Return version /\
     json_get "change_reason" (JObj manifest) = Return change_reason /\
     json_get "_manifest_version" (JObj snapshot) = Return recorded /\
     truthy version = true /\
     truthy change_reason = true /\
     py_eq recorded version = true) /\
  (Consistency.warnings r = [] <->
   exists calibration status,
     calibration_metrics fs = Loaded (JObj calibration) /\
     json_get "calibration_status" (JObj calibration) = Return status /\
     py_eq status (JStr "healthy") = true).
Proof.
  unfold verify_policy_consistency. intros H. split.
  - destruct (trusted_domains_manifest fs) as [| |[| | | | |m]];
      cbn [and_then json_get] in H; try discriminate H.
    + (* the manifest is absent *)
      destruct (trusted_domains_snapshot fs) as [| |s];
        cbn [and_then] in H; try discriminate H;
        (match type of H with
         | and_then ?a _ = _ =>
             destruct a; cbn [and_then] in H; [|discriminate H]
         end;
         injection H as <-; cbn;
         split; [discriminate|intros (? & ? & ? & ? & ? & [=] & _)]).
    + (* the manifest is an object *)
      destruct (trusted_domains_snapshot fs) as [| |[| | | | |s]];
        cbn [and_then json_get] in H; try discriminate H.
      * match type of H with
        | and_then ?a _ = _ =>
            destruct a; cbn [and_then] in H; [|discriminate H]
        end.
        injection H as <-. cbn [Consistency.consistent].
        rewrite length_app, Nat.add_comm. cbn.
        split; [discriminate|intros (? & ? & ? & ? & ? & _ & [=] & _)].
      * match type of H with
        | and_then ?a _ = _ =>
            destruct a; cbn [and_then] in H; [|discriminate H]
        end.
        injection H as <-. cbn [Consistency.consistent].
        set (version := match assoc "version" m with
                        | Some v => v | None => JNull end).
        set (change := match assoc "change_reason" m with
                       | Some v => v | None => JNull end).
        set (recorded := match assoc "_manifest_version" s with
                         | Some v => v | None => JNull end).
        destruct (truthy version) eqn:Tv, (truthy change) eqn:Tc,
          (py_eq recorded version) eqn:Te; cbn;
          (split;
           [ first [ discriminate
                   | intros _; exists m, s, version, change, recorded;
                     repeat split; assumption ]
           | first [ reflexivity
                   | intros (m' & s' & v' & c' & r' & Hm' & Hs' & Hv' & Hc'
                             & Hr' & T1 & T2 & T3);
                     injection Hm' as <-; injection Hs' as <-;
                     cbn [json_get] in Hv', Hc', Hr';
                     injection Hv' as <-; injection Hc' as <-;
                     injection Hr' as <-;
                     fold version in T1, T3; fold change in T2;
                     fold recorded in T3; congruence ] ]).
  - destruct (match trusted_domains_manifest fs with
              | Absent => _ | Malformed => _ | Loaded _ => _ end) as [x|];
      cbn [and_then] in H; [|discriminate H].
    destruct (match trusted_domains_snapshot fs with
              | Absent => _ | Malformed => _ | Loaded _ => _ end) as [y|];
      cbn [and_then] in H; [|discriminate H].
    destruct (calibration_metrics fs) as [| |[| | | | |c]];
      cbn [and_then json_get] in H; try discriminate H;
      injection H as <-; cbn [Consistency.warnings].
    + split; [discriminate|intros (? & ? & [=] & _)].
    + set (status := match assoc "calibration_status" c with
                     | Some v => v | None => JNull end).
      destruct (py_eq status (JStr "healthy")) eqn:Es; cbn.
      * split; [|reflexivity]. intros _. exists c, status.
        repeat split. exact Es.
      * split; [discriminate|].
        intros (c' & st' & Hc' & Hs' & Hp). injection Hc' as <-.
        cbn [json_get] in Hs'. injection Hs' as <-.
        fold status in Hp. congruence.
Qed.
(** ** The override ledger *)

Lemma scanned_weaken (lo hi lo' hi' : nat) (o o' : Override) :
  (lo' <= lo)%nat -> (hi <= hi')%nat -> scanned lo hi o o' -> scanned lo' hi' o o'.
Proof.
  intros Hlo Hhi [[-> H]|(-> & Ha & e & n & He & Hn & Hx)].
  - left. split; [reflexivity|]. intros Ha e He.
    destruct (H Ha e He) as (n & Hn & Hx). exists n. split; [lia|exact Hx].
  - right. split; [reflexivity|]. split; [exact Ha|]. exists e, n.
    split; [exact He|]. split; [lia|exact Hx].
Qed.

Lemma scan_overrides_cons (o : Override) (rest : list Override) (w : World) :
  exists (o' : Override) (act : list Override) (n : nat),
    let w1 := mkWorld (engine w) (state_file w) (clock_reads w + n)
                (urandom_reads w) in
    scan_overrides (o :: rest) w =
      match scan_overrides rest w1 with
      | (Return r, w2) => (Return (o' :: fst r, act ++ snd r), w2)
      | (Raise e, w2) => (Raise e, w2)
      end /\
    scanned (clock_reads w) (clock_reads w + n) o o' /\
    (act = [] \/ act = [o] /\ o' = o /\ is_active o = true) /\
    (is_active o = true -> expires_at o = None -> act = [o]) /\
    (monotone_clock -> act = if is_active o' then [o'] else []).
Proof.
  cbn [scan_overrides]. unfold is_expired.
  destruct (is_active o) eqn:Ha; [destruct (expires_at o) as [e|] eqn:He|].
  - cbn. destruct (Z.ltb_spec e (clock (clock_reads w))) as [H1|H1]; cbn.
    + destruct (Z.ltb_spec e (clock (S (clock_reads w)))) as [H2|H2]; cbn.
      * exists (set_is_active false o), [], 2%nat. cbv zeta.
        replace (clock_reads w + 2)%nat with (S (S (clock_reads w))) by lia.
        split; [unfold bind; reflexivity|]. split.
        { right. split; [reflexivity|]. split; [exact Ha|].
          exists e, (clock_reads w). split; [exact He|]. split; [lia|exact H1]. }
        split; [left; reflexivity|]. split; [intros _ He'; congruence|]. intros _. reflexivity.
      * exists o, [], 2%nat. cbv zeta.
        replace (clock_reads w + 2)%nat with (S (S (clock_reads w))) by lia.
        split; [unfold bind; reflexivity|]. split.
        { left. split; [reflexivity|]. intros _ e' He'.
          rewrite He in He'. injection He' as <-.
          exists (S (clock_reads w)). split; [lia|exact H2]. }
        split; [left; reflexivity|]. split; [intros _ He'; congruence|].
        intros Hm. specialize (Hm (clock_reads w)). lia.
    + exists o, [o], 1%nat. cbv zeta.
      replace (clock_reads w + 1)%nat with (S (clock_reads w)) by lia.
      split; [unfold bind; reflexivity|]. split.
      { left. split; [reflexivity|]. intros _ e' He'.
        rewrite He in He'. injection He' as <-.
        exists (clock_reads w). split; [lia|exact H1]. }
      split; [right; auto|]. split; [intros _ He'; congruence|].
      intros _. rewrite Ha. reflexivity.
  - exists o, [o], 0%nat. cbv zeta. rewrite Nat.add_0_r.
    split; [unfold bind, ret; destruct w; reflexivity|]. split.
    { left. split; [reflexivity|]. intros _ e He'. congruence. }
    split; [right; auto|]. split; [auto|]. intros _. rewrite Ha. reflexivity.
  - exists o, [], 0%nat. cbv zeta. rewrite Nat.add_0_r.
    split; [unfold bind, ret; destruct w; reflexivity|]. split.
    { left. split; [reflexivity|]. intros Ha'. congruence. }
    split; [left; reflexivity|]. split; [intros Ha'; congruence|].
    intros _. rewrite Ha. reflexivity.
Qed.
Lemma scan_overrides_spec (l : list Override) (w : World) :
  exists (l' act : list Override) (n : nat),
    scan_overrides l w =
      (Return (l', act),
       mkWorld (engine w) (state_file w) (clock_reads w + n) (urandom_reads w)) /\
    Forall2 (scanned (clock_reads w) (clock_reads w + n)) l l' /\
    (forall o, In o act -> In o l /\ In o l' /\ is_active o = true) /\
    (forall o, In o l -> is_active o = true -> expires_at o = None ->
       In o act /\ In o l') /\
    (monotone_clock -> act = List.filter is_active l').
Proof.
  revert w. induction l as [|o rest IH]; intros w.
  - exists [], [], 0%nat. rewrite Nat.add_0_r.
    split; [destruct w; reflexivity|]. split; [constructor|].
    split; [intros o []|]. split; [intros o []|]. intros _. reflexivity.
  - destruct (scan_overrides_cons o rest w)
      as (o' & act & n & Hrun & Hsc & Hact & Hperm & Hmono).
    cbv zeta in Hrun.
    destruct (IH (mkWorld (engine w) (state_file w) (clock_reads w + n)
                    (urandom_reads w)))
      as (l' & act' & n' & Hrun' & Hf2 & Hin & Hp & Hm).
    cbn [engine state_file clock_reads urandom_reads] in *.
    rewrite Hrun' in Hrun. cbn [fst snd] in Hrun.
    exists (o' :: l'), (act ++ act'), (n + n')%nat.
    replace (clock_reads w + (n + n'))%nat with (clock_reads w + n + n')%nat by lia.
    split; [exact Hrun|]. split.
    { constructor.
      - eapply scanned_weaken; [| |exact Hsc]; lia.
      - eapply Forall2_impl; [exact Hf2|]. intros a b Hab.
        eapply scanned_weaken; [| |exact Hab]; lia. }
    split.
    { intros x Hx. apply in_app_or in Hx as [Hx|Hx].
      - destruct Hact as [->|(-> & -> & Ha)]; [destruct Hx|].
        destruct Hx as [<-|[]]. repeat split; [left; reflexivity..|exact Ha].
      - destruct (Hin x Hx) as (H1 & H2 & H3).
        repeat split; [right; exact H1|right; exact H2|exact H3]. }
    split.
    { intros x [<-|Hx] Ha He.
      - rewrite (Hperm Ha He).
        destruct Hact as [Hnil|(_ & -> & _)];
          [rewrite (Hperm Ha He) in Hnil; discriminate|].
        split; [left; reflexivity|left; reflexivity].
      - destruct (Hp x Hx Ha He) as [H1 H2].
        split; [apply in_or_app; right; exact H1|right; exact H2]. }
    intros Hmc. rewrite (Hmono Hmc), (Hm Hmc). cbn [List.filter].
    destruct (is_active o'); reflexivity.
Qed.

Lemma get_active_overrides_run (w : World) :
  exists (l' act : list Override) (n : nat),
    get_active_overrides w =
      (Return act,
       mkWorld (mkEngine l' (canary_signals (engine w)) (safety_budget (engine w)))
         (Some (mkStateFile l' (canary_signals (engine w))
                  (Some (safety_budget (engine w)))
                  (clock (clock_reads w + n))))
         (S (clock_reads w + n)) (urandom_reads w)) /\
    Forall2 (scanned (clock_reads w) (clock_reads w + n)) (overrides (engine w)) l' /\
    (forall o, In o act ->
       In o (overrides (engine w)) /\ In o l' /\ is_active o = true) /\
    (forall o, In o (overrides (engine w)) -> is_active o = true ->
       expires_at o = None -> In o act /\ In o l') /\
    (monotone_clock -> act = List.filter is_active l').
Proof.
  destruct (scan_overrides_spec (overrides (engine w)) w)
    as (l' & act & n & Hrun & Hrest).
  exists l', act, n. split; [|exact Hrest].
  unfold get_active_overrides. rewrite bind_run, get_engine_run, bind_run, Hrun.
  reflexivity.
Qed.

(** X11.  [get_active_overrides] returns, keeps every record of the ledger in
    its place and only ever turns an active flag off: an override is
    deactivated only if a clock reading taken during the call had passed its
    expiration, and an active one with an expiration is kept only if a
    reading had not passed it (at the very instant of the expiration it is
    still active).  Every override it returns is active in the ledger it
    leaves; an active override without expiration is always returned; and
    when the clock never goes back it returns exactly the overrides left
    active.  The budget and the signals are untouched and the ledger is
    saved. *)
Theorem get_active_overrides_demotes_the_expired (w : World) :
  exists (act : list Override) (w' : World),
    get_active_overrides w = (Return act, w') /\
    Forall2 (scanned (clock_reads w) (clock_reads w'))
      (overrides (engine w)) (overrides (engine w')) /\
    (forall o, In o act -> In o (overrides (engine w')) /\ is_active o = true) /\
    (forall o, In o (overrides (engine w)) -> is_active o = true ->
       expires_at o = None -> In o act) /\
    (monotone_clock -> act = List.filter is_active (overrides (engine w'))) /\
    canary_signals (engine w') = canary_signals (engine w) /\
    safety_budget (engine w') = safety_budget (engine w) /\
    in_sync w'.
Proof.
  destruct (get_active_overrides_run w) as (l' & act & n & Hrun & Hf2 & Hin & Hp & Hm).
  eexists act, _. split; [exact Hrun|]. cbn [engine overrides clock_reads].
  split; [eapply Forall2_impl; [exact Hf2|];
          intros a b Hab; eapply scanned_weaken; [| |exact Hab]; lia|].
  split; [intros o Ho; destruct (Hin o Ho) as (_ & H2 & H3); split; assumption|].
  split; [intros o Ho Ha He; apply (Hp o Ho Ha He)|].
  split; [exact Hm|]. split; [reflexivity|]. split; [reflexivity|].
  eexists. split; [reflexivity|]. repeat split.
Qed.
Lemma request_override_returned (ty : OverrideType) (au : OverrideAuthority)
    (domains : list string) (why approver : string) (ticket : option string)
    (duration : option timedelta) (w w' : World) (o : Override) :
  request_override ty au domains why approver ticket duration w = (Return o, w') ->
  is_frozen (safety_budget (engine w)) = false /\
  _validate_authority ty au ticket = Return tt /\
  overrides_used (safety_budget (engine w)) <= budget_limit "overrides_per_window".
Proof.
  intros H.
  destruct (is_frozen (safety_budget (engine w))) eqn:Hf.
  { rewrite request_override_frozen in H by exact Hf. discriminate H. }
  split; [reflexivity|].
  destruct (_validate_authority_outcome ty au ticket) as [Hv|[msg Hv]].
  - split; [exact Hv|].
    destruct (Z.le_gt_cases (overrides_used (safety_budget (engine w)))
                (budget_limit "overrides_per_window")) as [Hb|Hb]; [exact Hb|].
    destruct (request_override_budget_exceeded ty au domains why approver ticket
                duration w Hf Hv Hb) as (w2 & Hrun & _).
    rewrite Hrun in H. discriminate H.
  - exfalso. unfold request_override in H.
    rewrite bind_run, get_budget_run, Hf, bind_run in H. unfold lift in H.
    rewrite Hv in H. discriminate H.
Qed.

Lemma request_override_keeps_ledger (ty : OverrideType) (au : OverrideAuthority)
    (domains : list string) (why approver : string) (ticket : option string)
    (duration : option timedelta) (w : World) :
  exists tail,
    overrides (engine (snd (request_override ty au domains why approver ticket
                              duration w)))
    = overrides (engine w) ++ tail.
Proof.
  unfold request_override. rewrite bind_run, get_budget_run.
  destruct (is_frozen (safety_budget (engine w)));
    [exists []; rewrite app_nil_r; reflexivity|].
  rewrite bind_run. unfold lift.
  destruct (_validate_authority ty au ticket) as [[]|e];
    [|exists []; rewrite app_nil_r; reflexivity].
  rewrite bind_run, _calculate_expiration_run.
  destruct (OVERRIDE_MAX_DURATION ty) as [m|];
    rewrite bind_run, get_budget_run; cbn -[budget_limit Z.min];
    destruct (budget_limit "overrides_per_window" <? _); cbn;
    first [exists []; rewrite app_nil_r; reflexivity | eexists; reflexivity].
Qed.

Lemma record_canary_result_overrides (dom verdict : string) (size : Z) (w : World) :
  overrides (engine (snd (record_canary_result dom verdict size w)))
  = overrides (engine w).
Proof.
  destruct (String.eqb_spec verdict "PHISHING") as [->|Hv].
  - destruct (record_canary_result_phishing dom size w) as (w' & -> & _ & Ho & _).
    exact Ho.
  - destruct (record_canary_result_pass dom verdict size w Hv)
      as (w' & -> & _ & Ho & _).
    exact Ho.
Qed.

Lemma record_safety_event_overrides (event_type : string) (w : World) :
  overrides (engine (snd (record_safety_event event_type w)))
  = overrides (engine w).
Proof.
  unfold record_safety_event. rewrite bind_run.
  destruct (String.eqb event_type "suspicious_on_trusted");
    [|destruct (String.eqb event_type "override");
      [|destruct (String.eqb event_type "canary_failure")]];
    cbn -[check_budgets is_budget_exceeded];
    rewrite bind_run;
    match goal with |- context [check_budgets ?l ?w'] =>
      pose proof (check_budgets_frame l w') as [Hs _];
      pose proof (check_budgets_keeps_frozen l w') as [Hr _];
      destruct (check_budgets l w') as [[[]|e] w'']; cbn in Hr, Hs;
        try discriminate Hr; cbn; exact Hs
    end.
Qed.

Lemma lift_freeze_overrides (lifted_by resolution ticket : string) (w : World) :
  overrides (engine (snd (lift_freeze lifted_by resolution ticket w)))
  = overrides (engine w).
Proof.
  rewrite lift_freeze_run.
  destruct (is_frozen (safety_budget (engine w))); reflexivity.
Qed.

(** A call other than a revocation keeps an active override without
    expiration in the ledger. *)
Lemma run_call_keeps_permanent (c : call) (o : Override) (w : World) :
  is_revoke c = false ->
  is_active o = true -> expires_at o = None ->
  In o (overrides (engine w)) -> In o (overrides (engine (run_call c w))).
Proof.
  intros Hc Ha He Hin. destruct c; cbn [run_call]; try discriminate Hc.
  - destruct (request_override_keeps_ledger ty au domains why approver ticket
                duration w) as (tail & ->).
    apply in_or_app. left. exact Hin.
  - destruct (get_active_overrides_run w) as (l' & act & n & -> & _ & _ & Hp & _).
    cbn. apply (Hp o Hin Ha He).
  - rewrite record_canary_result_overrides. exact Hin.
  - rewrite promote_canary_world. exact Hin.
  - rewrite record_safety_event_overrides. exact Hin.
  - rewrite lift_freeze_overrides. exact Hin.
  - rewrite get_safety_status_world.
    destruct (get_active_overrides_run w) as (l' & act & n & -> & _ & _ & Hp & _).
    cbn. apply (Hp o Hin Ha He).
Qed.

(** X12.  A PERMANENT override, once granted, is listed as active by
    [get_active_overrides] after any calls of the public methods that revoke
    nothing: it does not expire, and neither a freeze nor the lift of a
    freeze takes it away. *)
Theorem permanent_override_is_active_until_revoked (au : OverrideAuthority)
    (domains : list string) (why approver : string) (ticket : option string)
    (duration : option timedelta) (cs : list call) (w w1 : World) (o : Override) :
  request_override PERMANENT au domains why approver ticket duration w
    = (Return o, w1) ->
  forallb (fun c => negb (is_revoke c)) cs = true ->
  exists act w',
    get_active_overrides (run_calls cs w1) = (Return act, w') /\ In o act.
Proof.
  intros Hrun Hcs.
  destruct (request_override_returned _ _ _ _ _ _ _ _ _ _ Hrun) as (Hf & Hv & Hb).
  destruct (request_override_granted PERMANENT au domains why approver ticket
              duration w Hf Hv Hb)
    as (o' & w1' & Hrun' & _ & _ & _ & _ & _ & _ & Ha & _ & He & Hl & _).
  rewrite Hrun in Hrun'. injection Hrun' as <- <-. cbn in He.
  assert (Hin : In o (overrides (engine w1)))
    by (rewrite Hl; apply in_or_app; right; left; reflexivity).
  clear Hrun Hl. revert w1 Hin.
  induction cs as [|c cs IH]; intros w1 Hin.
  - cbn [run_calls fold_left].
    destruct (get_active_overrides_run w1) as (l' & act & n & Hr & _ & _ & Hp & _).
    eexists act, _. split; [exact Hr|]. apply (Hp o Hin Ha He).
  - cbn in Hcs. apply andb_prop in Hcs as [Hc Hcs].
    cbn [run_calls fold_left]. apply (IH Hcs).
    apply run_call_keeps_permanent; try assumption.
    destruct (is_revoke c); [discriminate|reflexivity].
Qed.
Lemma revoke_first_none (oid : string) (l : list Override) :
  revoke_first oid l = None <-> forall o, In o l -> override_id o <> oid.
Proof.
  induction l as [|o l IH]; cbn.
  - split; [intros _ o []|reflexivity].
  - destruct (String.eqb_spec (override_id o) oid) as [E|E].
    + split; [discriminate|]. intros H. exfalso. apply (H o); auto.
    + destruct (revoke_first oid l) as [l'|]; cbn.
      * split; [discriminate|]. intros H.
        assert (Some l' = None) by (apply IH; intros x Hx; apply H; auto).
        discriminate.
      * split; [|reflexivity]. intros _ x [<-|Hx]; [exact E|].
        apply IH; [reflexivity|exact Hx].
Qed.

Lemma revoke_first_some (oid : string) (l1 l2 : list Override) (o : Override) :
  (forall x, In x l1 -> override_id x <> oid) ->
  override_id o = oid ->
  revoke_first oid (l1 ++ o :: l2) = Some (l1 ++ set_is_active false o :: l2).
Proof.
  intros H1 Ho. induction l1 as [|x l1 IH]; cbn.
  - apply String.eqb_eq in Ho. rewrite Ho. reflexivity.
  - assert (Hx : override_id x <> oid) by (apply H1; left; reflexivity).
    apply String.eqb_neq in Hx. rewrite Hx.
    rewrite IH by (intros y Hy; apply H1; right; exact Hy). reflexivity.
Qed.

(** X13.  [revoke_override] raises "Override not found: <id>" and changes
    nothing when no override of the ledger bears the id.  Otherwise it
    returns after deactivating the first override that bears it, and only
    that one: every record stays in its place, the budget and the signals
    are untouched, and the ledger is saved.  It asks for no authority and
    works on a frozen engine just the same. *)
Theorem revoke_override_deactivates_the_first_match (oid revoked_by why : string)
    (w : World) :
  ((forall o, In o (overrides (engine w)) -> override_id o <> oid) ->
   revoke_override oid revoked_by why w
     = (Raise (ValueError ("Override not found: " +:+ oid)), w)) /\
  (forall l1 o l2,
     overrides (engine w) = l1 ++ o :: l2 ->
     (forall x, In x l1 -> override_id x <> oid) ->
     override_id o = oid ->
     exists w',
       revoke_override oid revoked_by why w = (Return tt, w') /\
       overrides (engine w') = l1 ++ set_is_active false o :: l2 /\
       canary_signals (engine w') = canary_signals (engine w) /\
       safety_budget (engine w') = safety_budget (engine w) /\
       in_sync w').
Proof.
  split.
  - intros Hn. apply revoke_first_none in Hn.
    unfold revoke_override. rewrite bind_run, get_engine_run, Hn. reflexivity.
  - intros l1 o l2 Hl H1 Ho.
    unfold revoke_override. rewrite bind_run, get_engine_run, Hl.
    rewrite (revoke_first_some oid l1 l2 o H1 Ho).
    eexists. split; [reflexivity|]. cbn. repeat split.
    eexists. split; [reflexivity|]. repeat split.
Qed.

(** No active override bears the id. *)
Lemma revoked_frame (oid : string) (l l' : list Override) (lo hi : nat) :
  Forall2 (scanned lo hi) l l' ->
  (forall o, In o l -> override_id o = oid -> is_active o = false) ->
  forall o, In o l' -> override_id o = oid -> is_active o = false.
Proof.
  intros Hf2. induction Hf2 as [|a b l l' Hab Hf2 IH]; intros H o Hin Hid.
  - destruct Hin.
  - destruct Hin as [<-|Hin].
    + destruct Hab as [[-> _]|(-> & _)]; [|reflexivity].
      apply H; [left; reflexivity|exact Hid].
    + apply IH; [|exact Hin|exact Hid]. intros x Hx. apply H. right. exact Hx.
Qed.
Lemma revoke_first_inv (oid : string) (l l' : list Override) :
  revoke_first oid l = Some l' ->
  exists l1 o l2,
    l = l1 ++ o :: l2 /\
    (forall x, In x l1 -> override_id x <> oid) /\
    override_id o = oid /\
    l' = l1 ++ set_is_active false o :: l2.
Proof.
  revert l'. induction l as [|a l IH]; intros l' H; cbn in H; [discriminate H|].
  destruct (String.eqb_spec (override_id a) oid) as [E|E].
  - injection H as <-. exists [], a, l. repeat split; [intros x []|exact E].
  - destruct (revoke_first oid l) as [l0|]; cbn in H; [|discriminate H].
    injection H as <-.
    destruct (IH l0 eq_refl) as (l1 & o & l2 & -> & H1 & Ho & ->).
    exists (a :: l1), o, l2. repeat split; [|exact Ho].
    intros x [<-|Hx]; [exact E|apply H1, Hx].
Qed.

Lemma revoke_override_keeps_revoked (oid oid' revoked_by why : string) (w : World) :
  revoked oid w -> revoked oid (snd (revoke_override oid' revoked_by why w)).
Proof.
  intros Hw. unfold revoke_override. rewrite bind_run, get_engine_run.
  destruct (revoke_first oid' (overrides (engine w))) as [l'|] eqn:Hr; [|exact Hw].
  destruct (revoke_first_inv oid' _ _ Hr) as (l1 & o & l2 & Hl & _ & _ & ->).
  unfold revoked in *. cbn. rewrite Hl in Hw. intros x Hx Hid.
  apply in_app_or in Hx as [Hx|[<-|Hx]].
  - apply Hw; [apply in_or_app; left; exact Hx|exact Hid].
  - reflexivity.
  - apply Hw; [apply in_or_app; right; right; exact Hx|exact Hid].
Qed.

Lemma get_active_overrides_keeps_revoked (oid : string) (w : World) :
  revoked oid w -> revoked oid (snd (get_active_overrides w)).
Proof.
  intros Hw.
  destruct (get_active_overrides_run w) as (l' & act & n & -> & Hf2 & _).
  unfold revoked. cbn. exact (revoked_frame oid _ _ _ _ Hf2 Hw).
Qed.

Lemma run_call_keeps_revoked (oid : string) (c : call) (w : World) :
  is_request c = false -> revoked oid w -> revoked oid (run_call c w).
Proof.
  intros Hc Hw. destruct c; cbn [run_call]; try discriminate Hc.
  - apply get_active_overrides_keeps_revoked, Hw.
  - apply revoke_override_keeps_revoked, Hw.
  - unfold revoked. rewrite record_canary_result_overrides. exact Hw.
  - unfold revoked. rewrite promote_canary_world. exact Hw.
  - unfold revoked. rewrite record_safety_event_overrides. exact Hw.
  - unfold revoked. rewrite lift_freeze_overrides. exact Hw.
  - rewrite get_safety_status_world.
    apply get_active_overrides_keeps_revoked, Hw.
Qed.

(** X14.  A revoked override is not listed again: in a ledger whose ids are
    all different, once [revoke_override] has returned for an id, no override
    bearing that id is returned by [get_active_overrides], after any calls of
    the public methods that issue no new override. *)
Theorem revoked_override_is_not_listed (oid revoked_by why : string)
    (cs : list call) (w : World) :
  List.NoDup (map override_id (overrides (engine w))) ->
  fst (revoke_override oid revoked_by why w) = Return tt ->
  forallb (fun c => negb (is_request c)) cs = true ->
  exists act w',
    get_active_overrides
      (run_calls cs (snd (revoke_override oid revoked_by why w)))
      = (Return act, w') /\
    forall o, In o act -> override_id o <> oid.
Proof.
  intros Hnd Hret Hcs.
  assert (H0 : revoked oid (snd (revoke_override oid revoked_by why w))).
  { unfold revoke_override in *. rewrite bind_run, get_engine_run in *.
    destruct (revoke_first oid (overrides (engine w))) as [l'|] eqn:Hr;
      [|discriminate Hret].
    destruct (revoke_first_inv oid _ _ Hr) as (l1 & o & l2 & Hl & H1 & Ho & ->).
    unfold revoked. cbn. intros x Hx Hid.
    apply in_app_or in Hx as [Hx|[<-|Hx]].
    - exfalso. exact (H1 x Hx Hid).
    - reflexivity.
    - exfalso. rewrite Hl, map_app in Hnd. cbn [map] in Hnd.
      apply NoDup_remove_2 in Hnd. apply Hnd. apply in_or_app. right.
      rewrite Ho, <- Hid. apply in_map. exact Hx. }
  revert H0. generalize (snd (revoke_override oid revoked_by why w)).
  induction cs as [|c cs IH]; intros w0 H0.
  - cbn [run_calls fold_left].
    destruct (get_active_overrides_run w0) as (l' & act & n & Hr & _ & Hin & _).
    eexists act, _. split; [exact Hr|]. intros o Ho Hid.
    destruct (Hin o Ho) as (Hl & _ & Ha).
    rewrite (H0 o Hl Hid) in Ha. discriminate Ha.
  - cbn in Hcs. apply andb_prop in Hcs as [Hc Hcs].
    cbn [run_calls fold_left]. apply (IH Hcs).
    apply run_call_keeps_revoked; [|exact H0].
    destruct (is_request c); [discriminate|reflexivity].
Qed.
(** ** The command line *)

Lemma _load_state_returns (w : World) : fst (_load_state w) = Return tt.
Proof.
  unfold _load_state. destruct (state_file w) as [f|]; [|reflexivity].
  destruct (saved_safety_budget f); reflexivity.
Qed.

Lemma get_safety_status_frozen (w : World) :
  exists st w',
    get_safety_status w = (Return st, w') /\
    Status.is_frozen st = is_frozen (safety_budget (engine w)) /\
    Status.freeze_reason st = freeze_reason (safety_budget (engine w)) /\
    Status.budget_exceeded st = is_budget_exceeded (safety_budget (engine w)) /\
    (exists act, fst (get_active_overrides w) = Return act /\
                 Status.active_overrides st = Z.of_nat (length act)).
Proof.
  unfold get_safety_status. rewrite bind_run, get_budget_run, bind_run.
  destruct (get_active_overrides_run w) as (l' & act & n & -> & _).
  eexists _, _. split; [reflexivity|]. cbn. repeat split.
  exists act. split; reflexivity.
Qed.

(** X15.  The exit status of the command line.  With [--verify] it is 1 when
    the verifier's report fails CI and 0 when it does not (an unreadable
    artifact ends the process with the exception), whatever the other flags.
    Without [--verify] and with [--status] it is 1 exactly when the engine
    built from the state file is frozen, so a freeze triggered by one process
    fails the status check of the next.  With neither flag it is 0. *)
Theorem main_exit_status (args : Args) (fs : Artifacts) (w : World) :
  (arg_verify args = true ->
   fst (main args fs w) =
     match verify_policy_consistency fs with
     | Return r => Return (if Consistency.should_fail_ci r then 1 else 0)
     | Raise e => Raise e
     end) /\
  (arg_verify args = false -> arg_status args = true ->
   fst (main args fs w) =
     Return (if is_frozen (safety_budget (engine (snd (_load_state w))))
             then 1 else 0)) /\
  (arg_verify args = false -> arg_status args = true ->
   forall why w0, w = snd (_trigger_freeze why w0) ->
   fst (main args fs w) = Return 1) /\
  (arg_verify args = false -> arg_status args = false ->
   fst (main args fs w) = Return 0).
Proof.
  assert (Hstatus : arg_verify args = false -> arg_status args = true ->
            fst (main args fs w) =
              Return (if is_frozen (safety_budget (engine (snd (_load_state w))))
                      then 1 else 0)).
  { intros Hv Hs. unfold main. rewrite bind_run.
    pose proof (_load_state_returns w) as Hl.
    destruct (_load_state w) as [[[]|e] w1]; cbn in Hl; [|discriminate Hl].
    rewrite Hv, Hs, bind_run. cbn [snd].
    destruct (get_safety_status_frozen w1) as (st & w2 & -> & Hf & _).
    rewrite Hf. destruct (is_frozen (safety_budget (engine w1))); reflexivity. }
  split; [|split; [exact Hstatus|split]].
  - intros Hv. unfold main. rewrite bind_run.
    pose proof (_load_state_returns w) as Hl.
    destruct (_load_state w) as [[[]|e] w1]; cbn in Hl; [|discriminate Hl].
    rewrite Hv, bind_run. unfold lift.
    destruct (verify_policy_consistency fs) as [r|e]; [|reflexivity].
    destruct (Consistency.should_fail_ci r); reflexivity.
  - intros Hv Hs why w0 ->. rewrite (Hstatus Hv Hs).
    rewrite (_load_state_in_sync _ (in_sync_trigger_freeze why w0)).
    reflexivity.
  - intros Hv Hs. unfold main. rewrite bind_run.
    pose proof (_load_state_returns w) as Hl.
    destruct (_load_state w) as [[[]|e] w1]; cbn in Hl; [|discriminate Hl].
    rewrite Hv, Hs.
    destruct (arg_list_overrides args).
    + rewrite bind_run.
      destruct (get_active_overrides_run w1) as (l' & act & n & -> & _).
      reflexivity.
    + destruct (arg_check_canary args) as [dom|]; [|reflexivity].
      destruct (negb (String.eqb dom "")); reflexivity.
Qed.
(** ** Refusals for budget, and service after a lift *)




End Engine.

(** ** The properties at concrete inputs *)

(** C2 at a frozen engine that sees a failing canary, a status query and a
    rejected request before the request under test. *)
Lemma frozen_engine_rejects_override_requests_witness :
  let w' :=
    run_calls sample_clock sample_suffix sample_strftime sample_percent
      [ RecordCanaryResult "bad.example" "PHISHING" 1;
        GetSafetyStatus;
        RequestOverride PERMANENT SECURITY_TEAM [] "cleanup" "alice" (Some "T-1") None ]
      (world_of frozen_budget) in
  frozen w' /\
  request_override sample_clock sample_suffix sample_strftime
    EMERGENCY ON_CALL ["example.com"] "incident" "bob" None None w' =
    (Raise (ValueError (frozen_message (freeze_reason (safety_budget (engine w'))))),
     w').
Proof.
  apply (frozen_engine_rejects_override_requests sample_clock sample_suffix
           sample_strftime sample_percent (world_of frozen_budget)
           [ RecordCanaryResult "bad.example" "PHISHING" 1;
             GetSafetyStatus;
             RequestOverride PERMANENT SECURITY_TEAM [] "cleanup" "alice"
               (Some "T-1") None ]);
    reflexivity.
Defined.



(** C6 at a frozen engine: the lift leaves every counter at zero. *)
Lemma lift_freeze_resets_window_witness :
  let b := safety_budget (engine (snd
             (lift_freeze sample_clock "alice" "root cause fixed" "T-2"
                (world_of frozen_budget)))) in
  is_frozen frozen_budget = true /\
  is_frozen b = false /\
  freeze_reason b = None /\
  suspicious_on_trusted b = 0 /\
  overrides_used b = 0 /\
  canary_failures b = 0 /\
  window_start b = sample_clock 0.
Proof.
  cbv zeta.
  destruct (proj2 (proj2 (lift_freeze_resets_window sample_clock "alice"
                            "root cause fixed" "T-2" (world_of frozen_budget)))
              eq_refl)
    as (H1 & H2 & H3 & H4 & H5 & H6 & _).
  repeat split; assumption.
Defined.

(** C8 at artifacts in agreement whose calibration metrics are missing. *)
Lemma verify_policy_consistency_fails_ci_on_errors_witness :
  exists r,
    verify_policy_consistency sample_str artifacts_without_calibration = Return r /\
    Consistency.should_fail_ci r = false /\
    Consistency.errors r = [] /\
    Consistency.warnings r = ["Calibration metrics file missing"].
Proof.
  exact (proj1 (proj2 (proj2 (verify_policy_consistency_fails_ci_on_errors
                                sample_str)))
           artifacts_without_calibration
           [("version", JStr "1.2.0"); ("change_reason", JStr "initial")]
           [("_manifest_version", JStr "1.2.0")]
           (JStr "1.2.0") (JStr "1.2.0") (JStr "initial")
           eq_refl eq_refl eq_refl eq_refl eq_refl eq_refl eq_refl eq_refl eq_refl).
Defined.


(** C10 at a status in the wrong case. *)
Lemma calibration_status_fails_closed_witness :
  "HEALTHY" <> "healthy" /\
  "HEALTHY" <> "degraded" /\
  apply_calibration_restriction "PHISHING" "HEALTHY" = "SUSPICIOUS".
Proof.
  assert (H1 : "HEALTHY" <> "healthy") by discriminate.
  assert (H2 : "HEALTHY" <> "degraded") by discriminate.
  split; [exact H1|]. split; [exact H2|].
  exact (proj2 (proj2 (calibration_status_fails_closed "HEALTHY" H1 H2))).
Defined.

(** ** The scenarios of the specification, run on the model *)

(** Scenario 1: the text of the refusal. *)
Example scenario_permanent_by_on_call :
  fst (request_override sample_clock sample_suffix sample_strftime
         PERMANENT ON_CALL ["example.com"] "cleanup" "alice" (Some "T-1") None
         (world_of (budget_with_overrides 0)))
  = Raise (ValueError
      "PERMANENT overrides require SECURITY_TEAM authority, got on-call").
Proof. reflexivity. Qed.

(** Scenario 2: five SAFE results of twenty samples make the domain
    eligible. *)
Example scenario_five_clean_runs :
  let w := run_calls sample_clock sample_suffix sample_strftime sample_percent
             (repeat (RecordCanaryResult "example.com" "SAFE" 20) 5)
             (world_of (budget_with_overrides 0)) in
  canary_signals (engine w) !! "example.com" = Some clean_signal /\
  Eligibility.eligible
    (check_promotion_eligibility sample_percent (engine w) "example.com") = true.
Proof. vm_compute. split; reflexivity. Qed.

(** Scenario 3: with five canary failures counted, one more PHISHING result
    freezes the engine. *)
Example scenario_sixth_canary_failure :
  let w := snd (record_canary_result sample_clock "bad.example" "PHISHING" 1
                  (world_of (mkSafetyBudgetStatus 0 0 0 5 false None))) in
  is_frozen (safety_budget (engine w)) = true /\
  freeze_reason (safety_budget (engine w)) = Some "Canary failure budget exceeded" /\
  canary_failures (safety_budget (engine w)) = 6.
Proof. vm_compute. repeat split. Qed.

(** Scenarios 4 and 6: a suspicious verdict on a trusted domain freezes the
    engine, the next EMERGENCY request by the on-call is refused as frozen,
    and the lift brings every counter back to zero. *)
Example scenario_freeze_then_lift :
  let w1 := snd (record_safety_event sample_clock "suspicious_on_trusted"
                   (world_of (budget_with_overrides 0))) in
  let r := request_override sample_clock sample_suffix sample_strftime
             EMERGENCY ON_CALL ["example.com"] "incident" "bob" None None w1 in
  let w2 := snd (lift_freeze sample_clock "alice" "root cause fixed" "T-2" (snd r)) in
  is_frozen (safety_budget (engine w1)) = true /\
  fst r = Raise (ValueError
            (frozen_message (Some "CRITICAL: SUSPICIOUS verdict on trusted domain"))) /\
  safety_budget (engine w2) = new_budget (sample_clock 3).
Proof. vm_compute. repeat split. Qed.

(** The pass rate is compared with [>=]: a hand-written state file whose
    signal counts more passes than runs is reported eligible.  The engine
    never builds such a signal ([signals_consistent_run_call]). *)
Example eligibility_of_inconsistent_signal :
  let s := mkCanarySignal "example.com" 5 6 0 100 None None 5 in
  let e := mkEngine [] {[ "example.com" := s ]} (budget_with_overrides 0) in
  Eligibility.eligible (check_promotion_eligibility sample_percent e "example.com")
    = true /\
  ~ (pass_rate s == 1)%Q.
Proof. vm_compute. split; [reflexivity|discriminate]. Qed.

(** ** URL input validation *)

Lemma lstrip_spaces (isspace : N -> bool) (p t : list N) :
  forallb isspace p = true -> lstrip isspace (p ++ t) = lstrip isspace t.
Proof.
  induction p as [|c p IH]; intros Hp; [reflexivity|].
  cbn in Hp. apply andb_prop in Hp as [Hc Hp]. cbn. rewrite Hc. apply IH, Hp.
Qed.

Lemma lstrip_nil (isspace : N -> bool) (s : list N) :
  lstrip isspace s = [] <-> forallb isspace s = true.
Proof.
  induction s as [|c s IH]; cbn; [tauto|].
  destruct (isspace c); cbn; [exact IH|]. split; discriminate.
Qed.

Lemma lstrip_app (isspace : N -> bool) (s q : list N) :
  lstrip isspace s <> [] -> lstrip isspace (s ++ q) = lstrip isspace s ++ q.
Proof.
  induction s as [|c s IH]; cbn; [congruence|].
  destruct (isspace c); [exact IH|reflexivity].
Qed.

Lemma rstrip_spaces (isspace : N -> bool) (t q : list N) :
  forallb isspace q = true -> rstrip isspace (t ++ q) = rstrip isspace t.
Proof.
  intros Hq. unfold rstrip. rewrite rev_app_distr, lstrip_spaces; [reflexivity|].
  rewrite forallb_forall in *. intros x Hx. apply Hq, in_rev, Hx.
Qed.

Lemma strip_padding (isspace : N -> bool) (p s q : list N) :
  forallb isspace p = true -> forallb isspace q = true ->
  strip isspace (p ++ s ++ q) = strip isspace s.
Proof.
  intros Hp Hq. unfold strip. rewrite lstrip_spaces by exact Hp.
  destruct (lstrip isspace s) as [|c r] eqn:Hs.
  - apply lstrip_nil in Hs.
    assert (H : lstrip isspace (s ++ q) = []).
    { apply lstrip_nil. rewrite forallb_app, Hs, Hq. reflexivity. }
    rewrite H. reflexivity.
  - rewrite lstrip_app by (rewrite Hs; discriminate).
    rewrite Hs. apply rstrip_spaces, Hq.
Qed.

(** X19.  What [validate_url_input] accepts: a [str] whose text, once the
    white space at both ends is stripped, has between 4 and 2000 code points
    and no space character; and it gives an empty message exactly when it
    accepts.  Anything that is not a [str], and the empty string, is refused
    as "URL is required". *)
Theorem validate_url_input_accepts (isspace : N -> bool) (url : pyarg) :
  (fst (validate_url_input isspace url) = true <->
   exists s,
     url = PyStr s /\
     4 <= Z.of_nat (length (strip isspace s)) <= 2000 /\
     ~ In 32%N (strip isspace s)) /\
  (snd (validate_url_input isspace url) = "" <->
   fst (validate_url_input isspace url) = true) /\
  (url = PyOther \/ url = PyStr [] ->
   validate_url_input isspace url = (false, "URL is required")).
Proof.
  split; [|split].
  - destruct url as [s|]; [|split; [discriminate|intros (s & [=] & _)]].
    assert (Hmem : existsb (N.eqb 32) (strip isspace s) = true
                   <-> In 32%N (strip isspace s)).
    { rewrite existsb_exists. split.
      - intros (x & Hx & E). apply N.eqb_eq in E. subst x. exact Hx.
      - intros Hx. exists 32%N. split; [exact Hx|reflexivity]. }
    destruct s as [|c s].
    + split; [discriminate|]. intros (s & [= <-] & H & _). cbn in H. lia.
    + unfold validate_url_input.
      destruct (Z.ltb_spec (Z.of_nat (length (strip isspace (c :: s)))) 4).
      { split; [discriminate|]. intros (s' & [= <-] & H' & _). lia. }
      destruct (Z.ltb_spec 2000 (Z.of_nat (length (strip isspace (c :: s))))).
      { split; [discriminate|]. intros (s' & [= <-] & H' & _). lia. }
      destruct (existsb (N.eqb 32) (strip isspace (c :: s))) eqn:E.
      { split; [discriminate|]. intros (s' & [= <-] & _ & Hn).
        exfalso. apply Hn, Hmem. reflexivity. }
      split; [|reflexivity]. intros _. exists (c :: s).
      split; [reflexivity|]. split; [lia|]. intros Hx. apply Hmem in Hx.
      congruence.
  - destruct url as [[|c s]|]; cbn -[strip Z.ltb];
      try (split; discriminate).
    destruct (_ <? 4); [split; discriminate|].
    destruct (2000 <? _); [split; discriminate|].
    destruct (existsb _ _); [split; discriminate|]. split; reflexivity.
  - intros [->| ->]; reflexivity.
Qed.

(** X20.  White space around a URL does not matter: padding a non-empty
    string with white space at either end changes neither the verdict nor
    the message, and for any string the verdict on the stripped text is the
    verdict on the text.  So validating before or after stripping, as the two
    scan routes do, accepts the same URLs. *)
Theorem validate_url_input_ignores_padding (isspace : N -> bool) (p s q : list N) :
  forallb isspace p = true ->
  forallb isspace q = true ->
  (s <> [] ->
   validate_url_input isspace (PyStr (p ++ s ++ q))
     = validate_url_input isspace (PyStr s)) /\
  fst (validate_url_input isspace (PyStr (p ++ s ++ q)))
    = fst (validate_url_input isspace (PyStr s)) /\
  fst (validate_url_input isspace (PyStr (strip isspace s)))
    = fst (validate_url_input isspace (PyStr s)).
Proof.
  intros Hp Hq.
  assert (Hgen : forall a b : list N,
            a <> [] -> b <> [] -> strip isspace a = strip isspace b ->
            validate_url_input isspace (PyStr a)
              = validate_url_input isspace (PyStr b)).
  { intros [|x a] [|y b] Ha Hb E; try congruence.
    unfold validate_url_input. rewrite E. reflexivity. }
  assert (Hshort : forall a : list N,
            strip isspace a = [] ->
            fst (validate_url_input isspace (PyStr a)) = false).
  { intros [|x a] E; [reflexivity|]. unfold validate_url_input. rewrite E.
    reflexivity. }
  assert (H1 : s <> [] ->
               validate_url_input isspace (PyStr (p ++ s ++ q))
                 = validate_url_input isspace (PyStr s)).
  { intros Hs. apply Hgen; [|exact Hs|apply strip_padding; assumption].
    destruct p; [destruct s; [congruence|discriminate]|discriminate]. }
  split; [exact H1|]. split.
  - destruct s as [|c s]; [|rewrite H1 by discriminate; reflexivity].
    apply Hshort. rewrite strip_padding by assumption. reflexivity.
  - destruct (strip isspace s) as [|c r] eqn:E.
    + rewrite (Hshort s E). reflexivity.
    + destruct s as [|d s]; [discriminate E|].
      rewrite <- E. f_equal. apply Hgen; [rewrite E; discriminate|discriminate|].
      (* stripping twice is stripping once *)
      unfold strip at 1. 
      assert (Hl : lstrip isspace (strip isspace (d :: s)) = strip isspace (d :: s)).
      { rewrite E. cbn.
        assert (Hc : isspace c = false).
        { unfold strip, rstrip in E.
          destruct (lstrip isspace (d :: s)) as [|c0 r0] eqn:El; [discriminate E|].
          assert (Hc0 : isspace c0 = false).
          { clear E. revert El. generalize (d :: s). intros l.
            induction l as [|z l IHl]; cbn; [discriminate|].
            destruct (isspace z) eqn:Ez; [exact IHl|]. intros [= <- _]. exact Ez. }
          (* the first character of the stripped text is c0 *)
          destruct (lstrip isspace (rev (c0 :: r0))) as [|e t] eqn:Er.
          - cbn in E. discriminate E.
          - assert (Hin : rev (e :: t) = c :: r) by exact E.
            (* rev (c0 :: r0) = spaces ++ e :: t *)
            assert (Hsuf : exists sp, rev (c0 :: r0) = sp ++ e :: t).
            { clear - Er. revert Er. generalize (rev (c0 :: r0)). intros l.
              induction l as [|z l IHl]; cbn; [discriminate|].
              destruct (isspace z).
              - intros Hl. destruct (IHl Hl) as (sp & ->). exists (z :: sp). reflexivity.
              - intros [= <- <-]. exists []. reflexivity. }
            destruct Hsuf as (sp & Hsp).
            apply (f_equal (@rev N)) in Hsp. rewrite rev_involutive in Hsp.
            rewrite rev_app_distr in Hsp.
            change (rev (e :: t)) with (rev (e :: t)) in Hsp. rewrite Hin in Hsp.
            cbn in Hsp. injection Hsp as <- _. exact Hc0. }
        rewrite Hc. reflexivity. }
      rewrite Hl. unfold strip, rstrip.
      (* rstrip of an rstripped text *)
      rewrite rev_involutive.
      assert (Hidem : forall l, lstrip isspace (lstrip isspace l) = lstrip isspace l).
      { intros l. induction l as [|z l IHl]; cbn; [reflexivity|].
        destruct (isspace z) eqn:Ez; [exact IHl|]. cbn. rewrite Ez. reflexivity. }
      rewrite Hidem. reflexivity.
Qed.

(** ** The further properties at concrete inputs *)

(** X2 at a counted event followed by a restart. *)
Lemma restart_restores_the_engine_witness :
  let w := snd (_save_state sample_clock (world_of (budget_with_overrides 0))) in
  in_sync w /\
  let w' := run_steps sample_clock sample_suffix sample_strftime sample_percent
              [Invoke (RecordSafetyEvent "override"); NewProcess] w in
  in_sync w' /\ _load_state sample_clock w' = (Return tt, w').
Proof.
  intros w.
  assert (H : in_sync w).
  { eexists. split; [reflexivity|]. repeat split. }
  split; [exact H|].
  exact (restart_restores_the_engine sample_clock sample_suffix sample_strftime
           sample_percent [Invoke (RecordSafetyEvent "override"); NewProcess]
           w H).
Defined.

(** X3 at a freeze followed by a counted event and a restart. *)
Lemma freeze_survives_restarts_witness :
  let ss := [Invoke (RecordSafetyEvent "override"); NewProcess] in
  let w' := run_steps sample_clock sample_suffix sample_strftime sample_percent ss
              (snd (_trigger_freeze sample_clock "drill"
                      (world_of (budget_with_overrides 0)))) in
  forallb (fun s => negb (lifts_freeze s)) ss = true /\
  frozen w' /\
  exists msg,
    request_override sample_clock sample_suffix sample_strftime
      EMERGENCY ON_CALL ["example.com"] "incident" "alice" None None w'
    = (Raise (ValueError msg), w').
Proof.
  cbv zeta. split; [reflexivity|].
  destruct (freeze_survives_restarts sample_clock sample_suffix sample_strftime
              sample_percent "drill"
              [Invoke (RecordSafetyEvent "override"); NewProcess]
              (world_of (budget_with_overrides 0))
              EMERGENCY ON_CALL ["example.com"] "incident" "alice" None None
              eq_refl) as [Hf Hr].
  split; [exact Hf|]. eexists. exact Hr.
Defined.

(** X4 at the fourth override of a window, recorded as an event. *)
Lemma record_safety_event_counts_then_freezes_witness :
  "override" <> "suspicious_on_trusted" /\
  is_frozen (safety_budget (engine (snd
    (record_safety_event sample_clock "override"
       (world_of (budget_with_overrides 3)))))) = true.
Proof.
  assert (H : "override" <> "suspicious_on_trusted") by discriminate.
  split; [exact H|].
  apply (proj1 (proj2 (proj2 (record_safety_event_counts_then_freezes sample_clock
                  "override" (world_of (budget_with_overrides 3)) H)) eq_refl)).
  right. left. cbn. lia.
Defined.

(** X5 at five override requests in a row: the fifth is the one refused. *)
Lemma unfrozen_engine_is_within_budget_witness :
  let request := RequestOverride EMERGENCY ON_CALL ["example.com"] "incident"
                   "alice" None None in
  state_file (world_of (budget_with_overrides 0)) = None /\
  within_budget
    (run_calls sample_clock sample_suffix sample_strftime sample_percent
       [request; request; request; request]
       (snd (_load_state sample_clock (world_of (budget_with_overrides 0))))).
Proof.
  cbv zeta. split; [reflexivity|].
  exact (unfrozen_engine_is_within_budget sample_clock sample_suffix
           sample_strftime sample_percent _ (world_of (budget_with_overrides 0))
           eq_refl).
Defined.


(** X7 at five SAFE runs of twenty samples each. *)
Lemma clean_runs_make_eligible_witness :
  "SAFE" <> "PHISHING" /\
  canary_signals (engine (world_of (budget_with_overrides 0))) !! "example.com"
    = None /\
  Eligibility.eligible
    (check_promotion_eligibility sample_percent
       (engine
          (run_calls sample_clock sample_suffix sample_strftime sample_percent
             (map (fun size => RecordCanaryResult "example.com" "SAFE" size)
                [20; 20; 20; 20; 20])
             (world_of (budget_with_overrides 0))))
       "example.com") = true.
Proof.
  assert (H : "SAFE" <> "PHISHING") by discriminate.
  split; [exact H|]. split; [reflexivity|].
  apply (proj2 (clean_runs_make_eligible sample_clock sample_suffix sample_strftime
                  sample_percent "example.com" "SAFE" [20; 20; 20; 20; 20]
                  (world_of (budget_with_overrides 0)) H eq_refl)).
  cbn. lia.
Defined.

(** X10 at artifacts in agreement whose calibration metrics are missing: the
    report is consistent and carries a warning. *)
Lemma verify_policy_consistency_verdict_witness :
  exists r,
    verify_policy_consistency sample_str artifacts_without_calibration = Return r /\
    Consistency.consistent r = true /\
    Consistency.warnings r <> [].
Proof.
  eexists. split; [reflexivity|].
  match goal with
  | |- Consistency.consistent ?r = true /\ _ =>
      pose proof (verify_policy_consistency_verdict sample_str
                    artifacts_without_calibration r eq_refl) as [Hc Hw]
  end.
  split.
  - apply Hc. do 5 eexists. repeat split; reflexivity.
  - intros Hn. apply Hw in Hn as (c & s & Habs & _). discriminate Habs.
Defined.

(** X12 at a PERMANENT override that lives through a freeze and its lift. *)
Lemma permanent_override_is_active_until_revoked_witness :
  let cs := [RecordSafetyEvent "suspicious_on_trusted";
             LiftFreeze "bob" "root cause fixed" "T-2"] in
  exists o w1,
    request_override sample_clock sample_suffix sample_strftime
      PERMANENT SECURITY_TEAM ["example.com"] "partner" "bob" (Some "T-1") None
      (world_of (budget_with_overrides 0)) = (Return o, w1) /\
    forallb (fun c => negb (is_revoke c)) cs = true /\
    exists act w',
      get_active_overrides sample_clock
        (run_calls sample_clock sample_suffix sample_strftime sample_percent cs w1)
        = (Return act, w') /\
      In o act.
Proof.
  cbv zeta. eexists. eexists. split; [vm_compute; reflexivity|].
  split; [reflexivity|].
  exact (permanent_override_is_active_until_revoked sample_clock sample_suffix
           sample_strftime sample_percent SECURITY_TEAM ["example.com"] "partner"
           "bob" (Some "T-1") None
           [RecordSafetyEvent "suspicious_on_trusted";
            LiftFreeze "bob" "root cause fixed" "T-2"]
           (world_of (budget_with_overrides 0)) _ _ eq_refl eq_refl).
Defined.

(** X14 at the one override of a ledger, revoked and then looked for. *)
Lemma revoked_override_is_not_listed_witness :
  let w := snd (request_override sample_clock sample_suffix sample_strftime
                  EMERGENCY ON_CALL ["example.com"] "incident" "alice" None None
                  (world_of (budget_with_overrides 0))) in
  let oid := "OVERRIDE-19700101000000-0a1b2c3d" in
  let cs := [GetActiveOverrides; RecordSafetyEvent "override"] in
  List.NoDup (map override_id (overrides (engine w))) /\
  fst (revoke_override sample_clock oid "bob" "resolved" w) = Return tt /\
  exists act w',
    get_active_overrides sample_clock
      (run_calls sample_clock sample_suffix sample_strftime sample_percent cs
         (snd (revoke_override sample_clock oid "bob" "resolved" w)))
      = (Return act, w') /\
    forall o, In o act -> override_id o <> oid.
Proof.
  intros w oid cs.
  assert (H : List.NoDup (map override_id (overrides (engine w)))).
  { cbn. constructor; [intros []|constructor]. }
  split; [exact H|]. split; [reflexivity|].
  exact (revoked_override_is_not_listed sample_clock sample_suffix sample_strftime
           sample_percent oid "bob" "resolved" cs w H eq_refl eq_refl).
Defined.


(** X20 at " \ta.io\n", in code points: accepted, as "a.io" is. *)
Lemma validate_url_input_ignores_padding_witness :
  forallb ascii_isspace [32; 9]%N = true /\
  forallb ascii_isspace [10]%N = true /\
  validate_url_input ascii_isspace
    (PyStr ([32; 9] ++ [97; 46; 105; 111] ++ [10])%N) = (true, "").
Proof.
  split; [reflexivity|]. split; [reflexivity|].
  rewrite (proj1 (validate_url_input_ignores_padding ascii_isspace
                    [32; 9]%N [97; 46; 105; 111]%N [10]%N eq_refl eq_refl))
    by discriminate.
  reflexivity.
Defined.
